(** * GitApp: a shallow embedding of [app.py] and its verified properties

    [app.py] is a Streamlit page that loads [comandos.csv] into a pandas
    frame, filters its rows by an importance range and a search text, lets
    the user pick one row and shows its details.

    The embedding follows the methods of [GitCommandsApp] one by one.  The
    object's attribute [self.df] and what the page has displayed so far are
    threaded through a small state-and-exception monad; the answers of the
    widgets (the rendering surface) are inputs.  Two library behaviours the
    program relies on but does not fix are parameters: what Python's [re]
    does on patterns outside the fragment parsed here, and the index order
    numpy's default sort returns. *)

From Stdlib Require Import ZArith List String Ascii Bool Lia.
From Stdlib Require Import Permutation Sorted DecimalString.
From Stdlib Require Import DecimalPos DecimalN.
Import ListNotations.

Open Scope string_scope.
Open Scope Z_scope.

(** ** Text

    A Python [str] is a [string] whose characters stand for the code points
    U+0000 to U+00FF, one [ascii] per code point (the Latin-1 block, which
    holds the Portuguese text of the data set). *)

Definition between (lo hi n : nat) : bool := (lo <=? n)%nat && (n <=? hi)%nat.

(** [str.lower] on one code point: A-Z, and the accented capitals
    U+00C0-U+00D6 and U+00D8-U+00DE, move up by 32. *)
Definition char_lower (c : ascii) : ascii :=
  let n := nat_of_ascii c in
  if between 65 90 n || between 192 214 n || between 216 222 n
  then ascii_of_nat (n + 32)
  else c.

Fixpoint lower (s : string) : string :=
  match s with
  | EmptyString => EmptyString
  | String c r => String (char_lower c) (lower r)
  end.

(** [str.isspace] on one code point: TAB, LF, VT, FF, CR, the separators
    U+001C-U+001F, the space, NEL (U+0085) and the no-break space (U+00A0). *)
Definition isspace (c : ascii) : bool :=
  let n := nat_of_ascii c in
  between 9 13 n || between 28 32 n || (n =? 133)%nat || (n =? 160)%nat.

Fixpoint lstrip (s : string) : string :=
  match s with
  | EmptyString => EmptyString
  | String c r => if isspace c then lstrip r else s
  end.

Fixpoint rstrip (s : string) : string :=
  match s with
  | EmptyString => EmptyString
  | String c r =>
      match rstrip r with
      | EmptyString => if isspace c then EmptyString else String c EmptyString
      | r' => String c r'
      end
  end.

(** [str.strip()] with no argument. *)
Definition strip (s : string) : string := lstrip (rstrip s).

(** Truth value of a [str]: false exactly for the empty one. *)
Definition truthy (s : string) : bool :=
  match s with
  | EmptyString => false
  | String _ _ => true
  end.

(** [needle in hay]. *)
Fixpoint contains (needle hay : string) : bool :=
  prefix needle hay
  || match hay with
     | EmptyString => false
     | String _ r => contains needle r
     end.

Definition cons_first (c : ascii) (pieces : list string) : list string :=
  match pieces with
  | [] => [String c EmptyString]
  | p :: ps => String c p :: ps
  end.

(** [s.split(sep)] for a non-empty [sep]: the text is scanned from the left;
    where [sep] starts the current piece ends and [sep] is dropped ([skip]
    counts the characters of a found separator still to drop). *)
Fixpoint split_from (sep : string) (skip : nat) (s : string) : list string :=
  match s with
  | EmptyString => [EmptyString]
  | String c r =>
      match skip with
      | S k => split_from sep k r
      | O =>
          if prefix sep s
          then EmptyString :: split_from sep (String.length sep - 1) r
          else cons_first c (split_from sep 0 r)
      end
  end.

Definition split (sep s : string) : list string := split_from sep 0 s.

(** [sep.join(pieces)]. *)
Fixpoint join (sep : string) (pieces : list string) : string :=
  match pieces with
  | [] => EmptyString
  | [p] => p
  | p :: ps => p ++ sep ++ join sep ps
  end.

Fixpoint zeros (n : nat) : string :=
  match n with
  | O => EmptyString
  | S k => String "0" (zeros k)
  end.

(** [format(n, "03d")]: decimal digits, zero-padded to three characters, the
    sign counted in the width. *)
Definition format_03d (n : Z) : string :=
  let digits := NilZero.string_of_uint (N.to_uint (Z.abs_N n)) in
  if n <? 0
  then "-" ++ zeros (2 - String.length digits) ++ digits
  else zeros (3 - String.length digits) ++ digits.

(** ** Regular expressions

    [Series.str.contains(pat, na=False)] is called with its default
    [regex=True]: [pat] is compiled by Python's [re] and searched in every
    cell.  The fragment of the pattern syntax read here is: ordinary
    characters, [.], and a backslash before a special character. *)

Inductive atom : Type :=
| Lit (c : ascii)   (* this character *)
| Dot.              (* any character but the newline *)

Inductive parsed : Type :=
| Atoms (l : list atom)   (* a pattern of the fragment *)
| BadPattern              (* [re.compile] raises [re.error] *)
| OtherSyntax.            (* a pattern outside the fragment *)

(** The characters [re] gives a meaning of their own. *)
Definition special (c : ascii) : bool :=
  existsb (Ascii.eqb c)
    ["."; "^"; "$"; "*"; "+"; "?"; "{"; "}"; "["; "]"; "\"; "|"; "("; ")"]%char.

Definition repeat_char (c : ascii) : bool :=
  existsb (Ascii.eqb c) ["*"; "+"; "?"]%char.

Definition cons_atom (a : atom) (p : parsed) : parsed :=
  match p with
  | Atoms l => Atoms (a :: l)
  | other => other
  end.

(** A trailing backslash is "bad escape (end of pattern)". *)
Fixpoint parse_atoms (pat : string) : parsed :=
  match pat with
  | EmptyString => Atoms []
  | String c r =>
      if Ascii.eqb c "." then cons_atom Dot (parse_atoms r)
      else if Ascii.eqb c "\" then
        match r with
        | EmptyString => BadPattern
        | String d r' =>
            if special d then cons_atom (Lit d) (parse_atoms r') else OtherSyntax
        end
      else if special c then OtherSyntax
      else cons_atom (Lit c) (parse_atoms r)
  end.

(** A pattern that starts with a repeat is "nothing to repeat". *)
Definition sre_parse (pat : string) : parsed :=
  match pat with
  | EmptyString => Atoms []
  | String c _ => if repeat_char c then BadPattern else parse_atoms pat
  end.

Definition atom_matches (a : atom) (c : ascii) : bool :=
  match a with
  | Lit d => Ascii.eqb d c
  | Dot => negb (Ascii.eqb c "010")
  end.

Fixpoint match_here (l : list atom) (s : string) : bool :=
  match l, s with
  | [], _ => true
  | _ :: _, EmptyString => false
  | a :: l', String c r => atom_matches a c && match_here l' r
  end.

(** [pattern.search(s) is not None]. *)
Fixpoint search (l : list atom) (s : string) : bool :=
  match_here l s
  || match s with
     | EmptyString => false
     | String _ r => search l r
     end.

(** ** Data *)

(** One row of the frame, by the four columns the program reads.  The cells
    have the types the code uses them at: [str] for the three texts (they
    are lowered, sliced and split), [int] for the rank (it is compared with
    integers and formatted with ["03d"]).  Row labels are never read (rows
    are reached by position, [iloc], or in order, [iterrows]) and are left
    out. *)
Record CommandEntry : Type := {
  comando : string;
  descrição : string;
  ordem_importância : Z;
  como_pode_ser_usado : string
}.

(** A frame: its column labels and its rows. *)
Record DataFrame : Type := {
  columns : list string;
  rows : list CommandEntry
}.

(** What the file system holds at [comandos.csv]. *)
Inductive csv_file : Type :=
| NoFile                      (* [csv_path.exists()] is false *)
| Unreadable (why : string)   (* [pd.read_csv] raises, with this text *)
| Table (df : DataFrame).     (* [pd.read_csv] returns this frame *)

(** The labels [validate_data] asks for; the accented letters by code point. *)
Definition required_columns : list string :=
  [ "comando";
    "descri" ++ String "231" (String "227" "o");
    "ordem_import" ++ String "226" "ncia";
    "como_pode_ser_usado" ].

(** [all(col in df.columns for col in required_columns)]. *)
Definition has_required_columns (d : DataFrame) : bool :=
  forallb (fun col => existsb (String.eqb col) (columns d)) required_columns.

(** The keys of [importance_ranges], in the order of the dictionary. *)
Inductive range_label : Type :=
| Essenciais | Intermediarios | Avancados | Tecnicos | Especificos | Todos.

Definition importance_ranges (k : range_label) : Z * Z :=
  match k with
  | Essenciais => (1, 10)
  | Intermediarios => (11, 30)
  | Avancados => (31, 60)
  | Tecnicos => (61, 100)
  | Especificos => (101, 157)
  | Todos => (1, 157)
  end.

Definition range_labels : list range_label :=
  [Essenciais; Intermediarios; Avancados; Tecnicos; Especificos; Todos].

(** The dictionary [render_sidebar_filters] returns. *)
Record Filters : Type := {
  min_importance : Z;
  max_importance : Z;
  search_term : string
}.

(** What the widgets answer during one run of the script. *)
Record Inputs : Type := {
  selected_range : range_label;     (* the sidebar select box *)
  search_text : string;             (* the sidebar text input *)
  selected_index : option nat       (* the command select box *)
}.

(** Exceptions derived from [Exception]. *)
Inductive exception : Type :=
| FileNotFoundError
| CsvError (why : string)     (* raised by [pd.read_csv] *)
| ReError (pat : string)      (* [re.error], raised by [str.contains] *)
| OverflowError               (* a repeat count too large for [re.compile] *)
| RecursionError              (* a pattern nested too deep for [re.compile] *)
| IndexError
| AttributeError.

(** What [re.compile] does with a pattern: it returns a compiled pattern,
    given here by its search, or raises an exception ([re.error] for a
    pattern it rejects; [OverflowError] and [RecursionError] are raised for
    some patterns too). *)
Inductive compiled : Type :=
| Pattern (found : string -> bool)
| Rejected (e : exception).

(** What a statement can raise.  [st.stop()] raises Streamlit's
    [StopException], which derives from [BaseException] and so passes
    through every [except Exception]. *)
Inductive raised : Type :=
| StopException
| Exception (e : exception).

(** The fixed texts of the error boxes. *)
Inductive error_text : Type :=
| file_not_found              (* Arquivo 'comandos.csv' nao encontrado ... *)
| load_failed (e : exception) (* Erro ao carregar dados: str(e) *)
| invalid_structure           (* Estrutura do CSV invalida ... *)
| app_failed (e : exception). (* Erro na aplicacao: str(e) *)

(** The calls that put something on the page, with what they carry. *)
Inductive event : Type :=
| set_page_config
| st_error (msg : error_text)
| st_info_reload
| st_warning_none_found
| header
| sidebar_filters_title
| sidebar_selectbox (options : list range_label)
| sidebar_text_input
| selector_title
| selectbox (labels : list string)
| st_columns
| details_title (name : string)
| details_badge (color : string) (rank : Z)
| details_description (text : string)
| usage_title
| st_code (example : string)
| sidebar_rule
| statistics_title
| metric_total (n : nat)
| metric_filtered (n : nat)
| distribution (essential intermediate advanced : nat)
| welcome
| footer (total : nat)
| style_sheet.

(** ** The state-and-exception monad *)

(** The attribute [self.df] ([None] while it is not set) and the page. *)
Record state : Type := {
  df : option DataFrame;
  page : list event
}.

Inductive outcome (A : Type) : Type :=
| Return (a : A)
| Raise (r : raised).

Arguments Return {A} a.
Arguments Raise {A} r.

Definition M (A : Type) : Type := state -> outcome A * state.

Definition ret {A : Type} (a : A) : M A := fun s => (Return a, s).

Definition bind {A B : Type} (m : M A) (k : A -> M B) : M B :=
  fun s =>
    match m s with
    | (Return a, s') => k a s'
    | (Raise r, s') => (Raise r, s')
    end.

Notation "x <- m ;; k" := (bind m (fun x => k))
  (at level 61, m at next level, right associativity).
Notation "m ;; k" := (bind m (fun _ => k))
  (at level 61, right associativity).

Definition raise {A : Type} (r : raised) : M A := fun s => (Raise r, s).

(** [try: body except Exception as e: handler e]. *)
Definition try_except {A : Type} (body : M A) (handler : exception -> M A) : M A :=
  fun s =>
    match body s with
    | (Raise (Exception e), s') => handler e s'
    | other => other
    end.

Definition emit (e : event) : M unit :=
  fun s => (Return tt, {| df := df s; page := page s ++ [e] |}).

Definition set_df (d : DataFrame) : M unit :=
  fun s => (Return tt, {| df := Some d; page := page s |}).

(** Reading [self.df]. *)
Definition get_df : M DataFrame :=
  fun s =>
    match df s with
    | Some d => (Return d, s)
    | None => (Raise (Exception AttributeError), s)
    end.

Definition st_stop {A : Type} : M A := raise StopException.

(** Unfolds the operations of the monad and reduces what they leave. *)
Ltac monad :=
  repeat progress
    (unfold bind, ret, raise, emit, set_df, get_df, st_stop, try_except;
     cbn [df page fst snd]).

(** ** pandas *)

(** [frame[mask]]: the rows whose mask entry is true, in order. *)
Definition select {A : Type} (l : list A) (mask : list bool) : list A :=
  map fst (filter snd (combine l mask)).

(** [frame.take(indexer)]: the rows at the given positions; numpy raises
    [IndexError] for a position past the end. *)
Fixpoint take {A : Type} (indexer : list nat) (l : list A) : option (list A) :=
  match indexer with
  | [] => Some []
  | i :: rest =>
      match nth_error l i, take rest l with
      | Some a, Some out => Some (a :: out)
      | _, _ => None
      end
  end.

(** [DataFrame.empty]: no rows (the column axis of a loaded frame holds the
    required labels and is never empty). *)
Definition empty (d : DataFrame) : bool :=
  match rows d with
  | [] => true
  | _ :: _ => false
  end.

Definition pd_read_csv (file : csv_file) : M DataFrame :=
  match file with
  | NoFile => raise (Exception FileNotFoundError)
  | Unreadable why => raise (Exception (CsvError why))
  | Table d => ret d
  end.

Definition exists_ (file : csv_file) : bool :=
  match file with
  | NoFile => false
  | _ => true
  end.

(** Two index sorts by insertion, used to instantiate the sort below: the
    new index goes before the first one whose key satisfies [before]. *)
Fixpoint insert_index (before : Z -> Z -> bool) (keys : list Z) (i : nat)
    (sorted : list nat) : list nat :=
  match sorted with
  | [] => [i]
  | j :: rest =>
      if before (nth i keys 0) (nth j keys 0)
      then i :: sorted
      else j :: insert_index before keys i rest
  end.

Definition argsort_by (before : Z -> Z -> bool) (keys : list Z) : list nat :=
  fold_left (fun acc i => insert_index before keys i acc)
            (seq 0 (List.length keys)) [].

(** Ties keep the order of the input. *)
Definition argsort_stable : list Z -> list nat := argsort_by Z.ltb.

(** Ties come out in the reverse of the order of the input. *)
Definition argsort_reversing : list Z -> list nat := argsort_by Z.leb.

(** [for x in l: body x]. *)
Fixpoint for_each {A : Type} (l : list A) (body : A -> M unit) : M unit :=
  match l with
  | [] => ret tt
  | x :: rest => body x ;; for_each rest body
  end.

(** ** The class [GitCommandsApp] *)

Section GitCommandsApp.

(** What [re.compile] does with a pattern outside the fragment above. *)
Variable re_other : string -> compiled.

(** The indexer numpy's [argsort] returns for a column of keys with the kind
    [sort_values] is called with (its default, ["quicksort"]). *)
Variable argsort : list Z -> list nat.

Definition re_compile (pat : string) : compiled :=
  match sre_parse pat with
  | Atoms l => Pattern (search l)
  | BadPattern => Rejected (ReError pat)
  | OtherSyntax => re_other pat
  end.

(** [cells.str.contains(pat, na=False)]: the pattern is compiled once, then
    searched in every cell.  [na=False] is the answer for a missing cell;
    every cell here is a [str]. *)
Definition str_contains (pat : string) (cells : list string) : M (list bool) :=
  match re_compile pat with
  | Pattern found => ret (map found cells)
  | Rejected e => raise (Exception e)
  end.

(** [frame.sort_values('ordem_importância').reset_index(drop=True)]. *)
Definition sort_values (d : DataFrame) : M DataFrame :=
  match take (argsort (map ordem_importância (rows d))) (rows d) with
  | Some sorted => ret {| columns := columns d; rows := sorted |}
  | None => raise (Exception IndexError)
  end.

Definition setup_page_config : M unit := emit set_page_config.

Definition validate_data : M unit :=
  d <- get_df ;;
  (if has_required_columns d
   then ret tt
   else emit (st_error invalid_structure) ;; st_stop) ;;
  d <- get_df ;;
  sorted <- sort_values d ;;
  set_df sorted.

Definition load_data (file : csv_file) : M unit :=
  try_except
    ((if exists_ file
      then ret tt
      else emit (st_error file_not_found) ;; st_stop) ;;
     d <- pd_read_csv file ;;
     set_df d ;;
     validate_data)
    (fun e => emit (st_error (load_failed e)) ;; st_stop).

(** The constructor. *)
Definition __init__ (file : csv_file) : M unit :=
  setup_page_config ;;
  load_data file.

Definition render_header : M unit := emit header.

Definition render_sidebar_filters (inp : Inputs) : M Filters :=
  emit sidebar_filters_title ;;
  emit (sidebar_selectbox range_labels) ;;
  let '(min_imp, max_imp) := importance_ranges (selected_range inp) in
  emit sidebar_text_input ;;
  let term := strip (lower (search_text inp)) in
  ret {| min_importance := min_imp;
         max_importance := max_imp;
         search_term := term |}.

Definition filter_commands (filters : Filters) : M DataFrame :=
  d <- get_df ;;
  let filtered_df :=
    {| columns := columns d;
       rows := select (rows d)
                 (map (fun r => (min_importance filters <=? ordem_importância r)
                                && (ordem_importância r <=? max_importance filters))
                      (rows d)) |} in
  if truthy (search_term filters)
  then
    in_name <- str_contains (search_term filters)
                 (map (fun r => lower (comando r)) (rows filtered_df)) ;;
    in_description <- str_contains (search_term filters)
                        (map (fun r => lower (descrição r)) (rows filtered_df)) ;;
    let mask := map (fun p => orb (fst p) (snd p)) (combine in_name in_description) in
    ret {| columns := columns filtered_df;
           rows := select (rows filtered_df) mask |}
  else ret filtered_df.

(** The text of one option of the command select box. *)
Definition display_text (row : CommandEntry) : string :=
  "#" ++ format_03d (ordem_importância row) ++ " - " ++ comando row
      ++ " - " ++ substring 0 50 (descrição row) ++ "...".

(** The result is the selected row as a dictionary, or [None]. *)
Definition render_command_selector (filtered_df : DataFrame) (inp : Inputs)
    : M (option CommandEntry) :=
  if empty filtered_df
  then emit st_warning_none_found ;; ret None
  else
    emit selector_title ;;
    let command_options := map display_text (rows filtered_df) in
    emit (selectbox command_options) ;;
    match selected_index inp with
    | Some i =>
        match nth_error (rows filtered_df) i with
        | Some row => ret (Some row)
        | None => raise (Exception IndexError)
        end
    | None => ret None
    end.

Definition get_importance_color (importance : Z) : string :=
  if importance <=? 10 then "#E74C3C"
  else if importance <=? 30 then "#F39C12"
  else if importance <=? 60 then "#3498DB"
  else if importance <=? 100 then "#27AE60"
  else "#8E44AD".

Definition render_command_details (selected_command : option CommandEntry) : M unit :=
  match selected_command with
  | None => ret tt
  | Some cmd =>
      emit st_columns ;;
      emit (details_title (comando cmd)) ;;
      let importance_color := get_importance_color (ordem_importância cmd) in
      emit (details_badge importance_color (ordem_importância cmd)) ;;
      emit (details_description (descrição cmd)) ;;
      emit usage_title ;;
      let usage_examples := split ", " (como_pode_ser_usado cmd) in
      for_each usage_examples (fun example =>
        let example := strip example in
        if truthy example then emit (st_code example) else ret tt)
  end.

(** [len(self.df[mask])]. *)
Definition count (keep : Z -> bool) (d : DataFrame) : nat :=
  List.length (select (rows d) (map (fun r => keep (ordem_importância r)) (rows d))).

Definition render_statistics (filtered_df : DataFrame) : M unit :=
  emit sidebar_rule ;;
  emit statistics_title ;;
  d <- get_df ;;
  let total_commands := List.length (rows d) in
  let filtered_commands := List.length (rows filtered_df) in
  emit (metric_total total_commands) ;;
  emit (metric_filtered filtered_commands) ;;
  let essential := count (fun k => k <=? 10) d in
  let intermediate := count (fun k => (10 <? k) && (k <=? 30)) d in
  let advanced := count (fun k => 30 <? k) d in
  emit (distribution essential intermediate advanced).

Definition render_footer : M unit :=
  d <- get_df ;;
  emit (footer (List.length (rows d))).

Definition run (inp : Inputs) : M unit :=
  render_header ;;
  filters <- render_sidebar_filters inp ;;
  filtered_df <- filter_commands filters ;;
  render_statistics filtered_df ;;
  selected_command <- render_command_selector filtered_df inp ;;
  (match selected_command with
   | Some _ => render_command_details selected_command
   | None => emit welcome
   end) ;;
  render_footer.

Definition main (file : csv_file) (inp : Inputs) : M unit :=
  try_except
    (__init__ file ;; run inp)
    (fun e => emit (st_error (app_failed e)) ;; emit st_info_reload).

(** The script: [main()], then the style sheet at the end of the file. *)
Definition script (file : csv_file) (inp : Inputs) : M unit :=
  main file inp ;;
  emit style_sheet.

(** The state the script starts in: no [self.df], an empty page. *)
Definition start : state := {| df := None; page := [] |}.

End GitCommandsApp.

(** ** Predicates the properties are stated with *)

(** [needle] occurs in [hay]. *)
Definition Substring (needle hay : string) : Prop :=
  exists before after, hay = before ++ needle ++ after.

(** No character of [s] is special for [re]. *)
Fixpoint plain (s : string) : bool :=
  match s with
  | EmptyString => true
  | String c r => negb (special c) && plain r
  end.

(** The atoms of a pattern made of ordinary characters. *)
Fixpoint lits (s : string) : list atom :=
  match s with
  | EmptyString => []
  | String c r => Lit c :: lits r
  end.

(** Every character of [s] is white space. *)
Fixpoint whitespace_only (s : string) : bool :=
  match s with
  | EmptyString => true
  | String c r => isspace c && whitespace_only r
  end.

(** [s] neither starts nor ends with white space. *)
Definition trimmed (s : string) : Prop :=
  lstrip s = s /\ rstrip s = s.

Definition rank_le (a b : CommandEntry) : Prop :=
  ordem_importância a <= ordem_importância b.

(** Entries of equal rank stand in [out] in the order they have in [input]. *)
Definition keeps_tie_order (input out : list CommandEntry) : Prop :=
  forall k : Z,
    filter (fun e => ordem_importância e =? k) out
    = filter (fun e => ordem_importância e =? k) input.

(** The key at position [i] is at most the key at position [j]. *)
Definition key_le (keys : list Z) (i j : nat) : Prop :=
  nth i keys 0 <= nth j keys 0.

(** What numpy promises of [argsort], whatever the kind: the indexer is a
    permutation of the positions, and the keys read in its order do not
    decrease. *)
Definition sorts (argsort : list Z -> list nat) : Prop :=
  forall keys : list Z,
    Permutation (argsort keys) (seq 0 (List.length keys))
    /\ StronglySorted (key_le keys) (argsort keys).

(** The file is missing, cannot be parsed, or lacks a required column. *)
Definition load_fails (file : csv_file) : bool :=
  match file with
  | NoFile => true
  | Unreadable _ => true
  | Table d => negb (has_required_columns d)
  end.

Definition in_range (lo hi : Z) (e : CommandEntry) : bool :=
  (lo <=? ordem_importância e) && (ordem_importância e <=? hi).

(** Whether the filter keeps a row, given the search of the compiled
    pattern. *)
Definition kept (filters : Filters) (found : string -> bool) (e : CommandEntry)
    : bool :=
  in_range (min_importance filters) (max_importance filters) e
  && (found (lower (comando e)) || found (lower (descrição e))).

(** Two rows of the same rank whose names and descriptions differ at most
    in the case of their letters. *)
Definition alike (a b : CommandEntry) : Prop :=
  ordem_importância a = ordem_importância b
  /\ lower (comando a) = lower (comando b)
  /\ lower (descrição a) = lower (descrição b).

(** A statement that never raises [StopException], never assigns [self.df]
    and only adds to the page. *)
Definition tame {A : Type} (m : M A) : Prop :=
  forall s : state,
    fst (m s) <> Raise StopException
    /\ df (snd (m s)) = df s
    /\ exists more : list event, page (snd (m s)) = (page s ++ more)%list.

(** The rank [k] lies in the range the sidebar offers under [label]. *)
Definition in_band (label : range_label) (k : Z) : Prop :=
  fst (importance_ranges label) <= k <= snd (importance_ranges label).

(** The filters the sidebar returns for [label] and an empty search box. *)
Definition band_filters (label : range_label) : Filters :=
  {| min_importance := fst (importance_ranges label);
     max_importance := snd (importance_ranges label);
     search_term := "" |}.

(** The rows of [d] with a rank in the range of [label], in the order of [d]. *)
Definition band_rows (label : range_label) (d : DataFrame) : list CommandEntry :=
  filter (in_range (fst (importance_ranges label)) (snd (importance_ranges label)))
         (rows d).

(** The dictionary [render_sidebar_filters] returns for the answers [inp]. *)
Definition sidebar_filters (inp : Inputs) : Filters :=
  {| min_importance := fst (importance_ranges (selected_range inp));
     max_importance := snd (importance_ranges (selected_range inp));
     search_term := strip (lower (search_text inp)) |}.

(** What every run puts on the page before the selector: the header, the
    three widgets of the sidebar and the statistics. *)
Definition page_top (d filtered_df : DataFrame) : list event :=
  [ header; sidebar_filters_title; sidebar_selectbox range_labels;
    sidebar_text_input; sidebar_rule; statistics_title;
    metric_total (List.length (rows d));
    metric_filtered (List.length (rows filtered_df));
    distribution (count (fun k => k <=? 10) d)
                 (count (fun k => (10 <? k) && (k <=? 30)) d)
                 (count (fun k => 30 <? k) d) ].

(** The integer a decimal numeral with an optional minus sign stands for
    (what [int] reads back from the output of [format]). *)
Definition read_decimal (s : string) : option Z :=
  option_map Z.of_int (NilZero.int_of_string s).

(** ** Sample data *)

Definition git_init : CommandEntry :=
  {| comando := "git init";
     descrição := "Cria um repositorio";
     ordem_importância := 1;
     como_pode_ser_usado := "git init, git init --bare,  , git init projeto" |}.

Definition git_commit : CommandEntry :=
  {| comando := "git commit";
     descrição := "Grava as mudancas";
     ordem_importância := 5;
     como_pode_ser_usado := "git commit -m 'msg', git commit --amend" |}.

Definition git_rebase : CommandEntry :=
  {| comando := "git rebase";
     descrição := "Reaplica commits";
     ordem_importância := 50;
     como_pode_ser_usado := "git rebase main" |}.

(** Four commands, two of rank 2 and two of rank 1. *)
Definition git_clone : CommandEntry :=
  {| comando := "git clone";
     descrição := "Copia um repositorio";
     ordem_importância := 2;
     como_pode_ser_usado := "git clone url" |}.

Definition git_pull : CommandEntry :=
  {| comando := "git pull";
     descrição := "Traz as mudancas";
     ordem_importância := 2;
     como_pode_ser_usado := "git pull" |}.

Definition git_config : CommandEntry :=
  {| comando := "git config";
     descrição := "Define opcoes";
     ordem_importância := 1;
     como_pode_ser_usado := "git config user.name nome" |}.

Definition git_help : CommandEntry :=
  {| comando := "git help";
     descrição := "Mostra a ajuda";
     ordem_importância := 1;
     como_pode_ser_usado := "git help" |}.

(** A command ranked past the last range of the sidebar. *)
Definition git_bisect : CommandEntry :=
  {| comando := "git bisect";
     descrição := "Busca binaria";
     ordem_importância := 158;
     como_pode_ser_usado := "git bisect start" |}.

Definition sample : DataFrame :=
  {| columns := required_columns; rows := [git_init; git_commit; git_rebase] |}.

Definition unsorted : DataFrame :=
  {| columns := required_columns; rows := [git_rebase; git_init; git_commit] |}.

(** A file whose rows have the ranks 2, 2, 1, 1, in this order. *)
Definition tied : DataFrame :=
  {| columns := required_columns;
     rows := [git_clone; git_pull; git_config; git_help] |}.

Definition beyond : DataFrame :=
  {| columns := required_columns; rows := [git_bisect] |}.

(** The sample frame with names and descriptions in capitals. *)
Definition shouted : DataFrame :=
  {| columns := required_columns;
     rows := [ {| comando := "GIT INIT";
                  descrição := "CRIA UM REPOSITORIO";
                  ordem_importância := 1;
                  como_pode_ser_usado := "git init" |};
               {| comando := "Git Commit";
                  descrição := "Grava as Mudancas";
                  ordem_importância := 5;
                  como_pode_ser_usado := "git commit" |};
               {| comando := "git REBASE";
                  descrição := "reaplica COMMITS";
                  ordem_importância := 50;
                  como_pode_ser_usado := "git rebase" |} ] |}.

(** The sample rows under the required labels in another order, with one
    more column. *)
Definition reordered : DataFrame :=
  {| columns := [ "como_pode_ser_usado"; "categoria";
                  "ordem_import" ++ String "226" "ncia"; "comando";
                  "descri" ++ String "231" (String "227" "o") ];
     rows := [git_init; git_commit; git_rebase] |}.

Definition no_other_syntax : string -> compiled :=
  fun pat => Rejected (ReError pat).

(** * Properties *)

(** ** Text *)

Lemma append_empty_r (s : string) : s ++ "" = s.
Proof.
  induction s as [|c s IH]; simpl; [reflexivity | now rewrite IH].
Qed.

Lemma append_assoc (a b c : string) : (a ++ b) ++ c = a ++ (b ++ c).
Proof.
  induction a as [|x a IH]; simpl; [reflexivity | now rewrite IH].
Qed.

Lemma length_append (a b : string) :
  String.length (a ++ b) = (String.length a + String.length b)%nat.
Proof.
  induction a as [|x a IH]; simpl; [reflexivity | now rewrite IH].
Qed.

Lemma prefix_append (p r : string) : prefix p (p ++ r) = true.
Proof.
  induction p as [|c p IH]; simpl.
  - now destruct r.
  - destruct (ascii_dec c c) as [_|ne]; [exact IH | now elim ne].
Qed.

Lemma prefix_split (p s : string) :
  prefix p s = true -> exists r, s = p ++ r.
Proof.
  revert s; induction p as [|c p IH]; intros s H.
  - now exists s.
  - destruct s as [|d s]; simpl in H; [discriminate|].
    destruct (ascii_dec c d) as [->|]; [|discriminate].
    destruct (IH s H) as [r ->]. now exists r.
Qed.

Lemma prefix_iff (p s : string) :
  prefix p s = true <-> exists r, s = p ++ r.
Proof.
  split; [apply prefix_split | intros [r ->]; apply prefix_append].
Qed.

Lemma contains_Substring (needle hay : string) :
  contains needle hay = true <-> Substring needle hay.
Proof.
  split.
  - induction hay as [|c hay IH]; cbn [contains]; intros H.
    + destruct needle; [|discriminate]. now exists "", "".
    + apply orb_true_iff in H as [H|H].
      * apply prefix_split in H as [r ->]. now exists "", r.
      * destruct (IH H) as (b & a & ->). now exists (String c b), a.
  - intros (b & a & ->). induction b as [|c b IH].
    + assert (P := prefix_append needle a). cbn [append].
      destruct (needle ++ a); cbn [contains]; rewrite P; reflexivity.
    + cbn [append contains]. rewrite IH. apply orb_true_r.
Qed.

Lemma not_contains_Substring (needle hay : string) :
  contains needle hay = false -> ~ Substring needle hay.
Proof.
  intros H S. apply contains_Substring in S. congruence.
Qed.

(** *** [split] and [join] *)

Lemma split_from_skip (sep done s : string) :
  split_from sep (String.length done) (done ++ s) = split_from sep 0 s.
Proof.
  induction done as [|c done IH]; [reflexivity | exact IH].
Qed.

Lemma split_from_nonempty (sep : string) (s : string) :
  forall k, split_from sep k s <> [].
Proof.
  induction s as [|c r IH]; intros k; cbn [split_from]; [discriminate|].
  destruct k; [|apply IH].
  destruct (prefix sep (String c r)); [discriminate|].
  unfold cons_first. now destruct (split_from sep 0 r).
Qed.

Lemma split_found (sep t : string) :
  sep <> "" -> split sep (sep ++ t) = "" :: split sep t.
Proof.
  intros ne. destruct sep as [|c sep']; [now elim ne|].
  unfold split. change (String c sep' ++ t) with (String c (sep' ++ t)).
  cbn [split_from].
  change (String c (sep' ++ t)) with (String c sep' ++ t).
  rewrite prefix_append. f_equal.
  replace (String.length (String c sep') - 1)%nat with (String.length sep')
    by (simpl; lia).
  apply split_from_skip.
Qed.

Lemma split_other (sep : string) (c : ascii) (r : string) :
  prefix sep (String c r) = false ->
  split sep (String c r) = cons_first c (split sep r).
Proof.
  intros H. unfold split. cbn [split_from]. now rewrite H.
Qed.

Lemma join_cons_first (sep : string) (c : ascii) (p : string) (ps : list string) :
  join sep (String c p :: ps) = String c (join sep (p :: ps)).
Proof.
  destruct ps; reflexivity.
Qed.

Lemma join_head (sep p : string) (ps : list string) :
  exists rest, join sep (p :: ps) = p ++ rest.
Proof.
  destruct ps as [|q ps].
  - exists "". simpl. now rewrite append_empty_r.
  - now exists (sep ++ join sep (q :: ps)).
Qed.

(** [split] cuts the text at separators and nowhere else: joining the
    pieces gives the text back, and no piece holds a separator. *)
Lemma split_spec (sep : string) :
  sep <> "" ->
  forall (n : nat) (s : string),
    (String.length s <= n)%nat ->
    join sep (split sep s) = s
    /\ Forall (fun p => contains sep p = false) (split sep s).
Proof.
  intros ne. induction n as [|n IH]; intros s Hn.
  - destruct s; [|simpl in Hn; lia]. split; [reflexivity|].
    constructor; [|constructor]. now destruct sep.
  - destruct s as [|c r].
    + split; [reflexivity|]. constructor; [|constructor]. now destruct sep.
    + destruct (prefix sep (String c r)) eqn:P.
      * apply prefix_split in P as [t E].
        assert (Ht : (String.length t <= n)%nat).
        { apply (f_equal String.length) in E. rewrite length_append in E.
          simpl in E, Hn. destruct sep; [now elim ne | simpl in E; lia]. }
        rewrite E, split_found by assumption.
        destruct (IH t Ht) as [J F]. split.
        -- destruct (split sep t) as [|p ps] eqn:S.
           ++ now elim (split_from_nonempty sep t 0).
           ++ change (join sep ("" :: p :: ps))
                with ("" ++ sep ++ join sep (p :: ps)).
              now rewrite J.
        -- constructor; [now destruct sep | exact F].
      * rewrite split_other by assumption.
        assert (Hr : (String.length r <= n)%nat) by (simpl in Hn; lia).
        destruct (IH r Hr) as [J F].
        destruct (split sep r) as [|p ps] eqn:S.
        { now elim (split_from_nonempty sep r 0). }
        cbn [cons_first]. split.
        -- now rewrite join_cons_first, J.
        -- apply Forall_cons_iff in F as [Fp Fps]. constructor; [|assumption].
           cbn [contains]. rewrite Fp, orb_false_r.
           destruct (prefix sep (String c p)) eqn:Q; [|reflexivity].
           apply prefix_split in Q as [u Q].
           destruct (join_head sep p ps) as [v V]. rewrite J in V.
           assert (X : prefix sep (String c r) = true).
           { apply prefix_iff. exists (u ++ v).
             rewrite <- append_assoc, <- Q, V. reflexivity. }
           congruence.
Qed.

Lemma join_split (sep s : string) : sep <> "" -> join sep (split sep s) = s.
Proof.
  intros ne. now apply (split_spec sep ne (String.length s) s).
Qed.

Lemma split_pieces (sep s : string) :
  sep <> "" -> Forall (fun p => ~ Substring sep p) (split sep s).
Proof.
  intros ne.
  destruct (split_spec sep ne (String.length s) s (le_n _)) as [_ F].
  eapply Forall_impl; [|exact F].
  intros p. apply not_contains_Substring.
Qed.

(** *** [strip] and [lower] *)

Lemma lstrip_whitespace (s : string) : whitespace_only s = true -> lstrip s = "".
Proof.
  induction s as [|c r IH]; simpl; [reflexivity|].
  intros H. apply andb_true_iff in H as [-> H]. now apply IH.
Qed.

Lemma rstrip_whitespace (s : string) : whitespace_only s = true -> rstrip s = "".
Proof.
  induction s as [|c r IH]; simpl; [reflexivity|].
  intros H. apply andb_true_iff in H as [-> H]. now rewrite IH.
Qed.

Lemma strip_whitespace (s : string) : whitespace_only s = true -> strip s = "".
Proof.
  intros H. unfold strip. now rewrite rstrip_whitespace.
Qed.

Lemma char_lower_space (c : ascii) : isspace c = true -> char_lower c = c.
Proof.
  destruct c as [[] [] [] [] [] [] [] []]; vm_compute; congruence.
Qed.

Lemma lower_whitespace (s : string) :
  whitespace_only s = true -> lower s = s.
Proof.
  induction s as [|c r IH]; simpl; [reflexivity|].
  intros H. apply andb_true_iff in H as [C H].
  now rewrite char_lower_space, IH.
Qed.

Lemma lstrip_spec (s : string) :
  exists l, s = l ++ lstrip s /\ whitespace_only l = true.
Proof.
  induction s as [|c r (l & E & W)]; [now exists ""|].
  simpl. destruct (isspace c) eqn:C.
  - exists (String c l). simpl. now rewrite C, W, <- E.
  - now exists "".
Qed.

Lemma rstrip_spec (s : string) :
  exists r, s = rstrip s ++ r /\ whitespace_only r = true.
Proof.
  induction s as [|c s (r & E & W)]; [now exists ""|].
  simpl. destruct (rstrip s) as [|d t] eqn:R.
  - simpl in E. subst r. destruct (isspace c) eqn:C.
    + exists (String c s). simpl. now rewrite C, W.
    + now exists s.
  - exists r. split; [|exact W]. cbn [append] in *. now rewrite <- E.
Qed.

Lemma lstrip_idempotent (s : string) : lstrip (lstrip s) = lstrip s.
Proof.
  induction s as [|c r IH]; [reflexivity|].
  simpl. destruct (isspace c) eqn:C; [exact IH | simpl; now rewrite C].
Qed.

Lemma rstrip_idempotent (s : string) : rstrip (rstrip s) = rstrip s.
Proof.
  induction s as [|c r IH]; [reflexivity|].
  simpl. destruct (rstrip r) as [|d t] eqn:R.
  - destruct (isspace c) eqn:C; [reflexivity | simpl; now rewrite C].
  - change (rstrip (String c (String d t)))
      with (match rstrip (String d t) with
            | EmptyString => if isspace c then EmptyString else String c EmptyString
            | r' => String c r'
            end).
    now rewrite IH.
Qed.

Lemma rstrip_lstrip (s : string) : rstrip s = s -> rstrip (lstrip s) = lstrip s.
Proof.
  induction s as [|c r IH]; [reflexivity|].
  intros H. cbn [lstrip]. destruct (isspace c) eqn:C; [|exact H].
  apply IH. cbn [rstrip] in H. rewrite C in H.
  destruct (rstrip r); [discriminate | now injection H].
Qed.

(** [strip] removes white space at both ends and nothing else. *)
Lemma strip_spec (s : string) :
  (exists l r, s = l ++ strip s ++ r
               /\ whitespace_only l = true /\ whitespace_only r = true)
  /\ trimmed (strip s).
Proof.
  split.
  - destruct (rstrip_spec s) as (r & Er & Wr).
    destruct (lstrip_spec (rstrip s)) as (l & El & Wl).
    exists l, r. repeat split; try assumption.
    unfold strip. now rewrite <- append_assoc, <- El.
  - unfold trimmed, strip. split.
    + apply lstrip_idempotent.
    + apply rstrip_lstrip, rstrip_idempotent.
Qed.

(** ** Regular expressions *)

Lemma not_special (c : ascii) :
  special c = false ->
  Ascii.eqb c "." = false /\ Ascii.eqb c "\" = false /\ repeat_char c = false.
Proof.
  unfold special, repeat_char. simpl. intros H.
  repeat (apply orb_false_iff in H as [? H]).
  repeat split; repeat (apply orb_false_iff; split); auto.
Qed.

Lemma parse_atoms_plain (pat : string) :
  plain pat = true -> parse_atoms pat = Atoms (lits pat).
Proof.
  induction pat as [|c r IH]; [reflexivity|].
  cbn [plain]. intros H. apply andb_true_iff in H as [C H].
  apply negb_true_iff in C. destruct (not_special c C) as (D & B & _).
  cbn [parse_atoms lits]. now rewrite D, B, C, IH.
Qed.

Lemma sre_parse_plain (pat : string) :
  plain pat = true -> sre_parse pat = Atoms (lits pat).
Proof.
  intros H. destruct pat as [|c r]; [reflexivity|].
  unfold sre_parse. rewrite parse_atoms_plain by assumption.
  cbn [plain] in H. apply andb_true_iff in H as [C _].
  apply negb_true_iff in C. destruct (not_special c C) as (_ & _ & ->).
  reflexivity.
Qed.

Lemma match_here_lits (pat s : string) : match_here (lits pat) s = prefix pat s.
Proof.
  revert s. induction pat as [|c r IH]; intros s.
  - now destruct s.
  - destruct s as [|d s]; [reflexivity|].
    cbn [lits match_here atom_matches prefix]. rewrite IH.
    destruct (ascii_dec c d) as [->|ne].
    + now rewrite Ascii.eqb_refl.
    + apply Ascii.eqb_neq in ne. now rewrite ne.
Qed.

(** Searching a pattern of ordinary characters is the substring test. *)
Lemma search_lits (pat s : string) : search (lits pat) s = contains pat s.
Proof.
  induction s as [|d s IH]; cbn [search contains]; rewrite match_here_lits.
  - reflexivity.
  - now rewrite IH.
Qed.

(** ** pandas *)

Lemma select_map {A : Type} (f : A -> bool) (l : list A) :
  select l (map f l) = filter f l.
Proof.
  unfold select. induction l as [|x l IH]; [reflexivity|].
  simpl. destruct (f x); simpl; now rewrite IH.
Qed.

Lemma combine_map_or {A : Type} (f g : A -> bool) (l : list A) :
  map (fun p => orb (fst p) (snd p)) (combine (map f l) (map g l))
  = map (fun x => f x || g x) l.
Proof.
  induction l as [|x l IH]; [reflexivity | simpl; now rewrite IH].
Qed.

Lemma filter_filter {A : Type} (f g : A -> bool) (l : list A) :
  filter f (filter g l) = filter (fun x => g x && f x) l.
Proof.
  induction l as [|x l IH]; [reflexivity|].
  simpl. destruct (g x); simpl; [destruct (f x)|]; now rewrite IH.
Qed.

Lemma filter_all {A : Type} (f : A -> bool) (l : list A) :
  Forall (fun x => f x = true) l -> filter f l = l.
Proof.
  induction 1 as [|x l Hx _ IH]; [reflexivity|].
  simpl. now rewrite Hx, IH.
Qed.

(** ** Index sorts *)

Section InsertionSort.

Variable before : Z -> Z -> bool.
Variable keys : list Z.
Hypothesis before_le : forall x y, before x y = true -> x <= y.
Hypothesis before_ge : forall x y, before x y = false -> y <= x.

Lemma insert_index_perm (i : nat) (l : list nat) :
  Permutation (insert_index before keys i l) (i :: l).
Proof.
  induction l as [|j l IH]; simpl; [reflexivity|].
  destruct (before _ _); [reflexivity|].
  rewrite IH. apply perm_swap.
Qed.

Lemma insert_index_sorted (i : nat) (l : list nat) :
  StronglySorted (key_le keys) l ->
  StronglySorted (key_le keys) (insert_index before keys i l).
Proof.
  induction 1 as [|j l S IH F]; simpl.
  - repeat constructor.
  - destruct (before _ _) eqn:B.
    + apply before_le in B. constructor.
      * now constructor.
      * constructor; [exact B|].
        eapply Forall_impl; [|exact F]. unfold key_le. intros; lia.
    + apply before_ge in B. constructor; [exact IH|].
      eapply Permutation_Forall.
      * symmetry. apply insert_index_perm.
      * now constructor.
Qed.

Lemma fold_insert_perm (l acc : list nat) :
  Permutation
    (fold_left (fun acc i => insert_index before keys i acc) l acc)
    (l ++ acc).
Proof.
  revert acc. induction l as [|i l IH]; intros acc; simpl; [reflexivity|].
  rewrite IH, insert_index_perm. symmetry. apply Permutation_middle.
Qed.

Lemma fold_insert_sorted (l acc : list nat) :
  StronglySorted (key_le keys) acc ->
  StronglySorted (key_le keys)
    (fold_left (fun acc i => insert_index before keys i acc) l acc).
Proof.
  revert acc. induction l as [|i l IH]; intros acc S; simpl; [exact S|].
  apply IH, insert_index_sorted, S.
Qed.

End InsertionSort.

Lemma argsort_by_sorts (before : Z -> Z -> bool) :
  (forall x y, before x y = true -> x <= y) ->
  (forall x y, before x y = false -> y <= x) ->
  sorts (argsort_by before).
Proof.
  intros Hle Hge keys. unfold argsort_by. split.
  - rewrite fold_insert_perm, app_nil_r. reflexivity.
  - apply fold_insert_sorted; [assumption.. | constructor].
Qed.

Lemma argsort_stable_sorts : sorts argsort_stable.
Proof.
  apply argsort_by_sorts; intros x y H.
  - apply Z.ltb_lt in H. lia.
  - apply Z.ltb_ge in H. lia.
Qed.

Lemma argsort_reversing_sorts : sorts argsort_reversing.
Proof.
  apply argsort_by_sorts; intros x y H.
  - apply Z.leb_le in H. lia.
  - apply Z.leb_gt in H. lia.
Qed.

Lemma take_nth {A : Type} (d : A) (indexer : list nat) (l : list A) :
  Forall (fun i => (i < List.length l)%nat) indexer ->
  take indexer l = Some (map (fun i => nth i l d) indexer).
Proof.
  induction 1 as [|i rest Hi _ IH]; [reflexivity|].
  simpl. now rewrite (nth_error_nth' l d Hi), IH.
Qed.

Lemma map_nth_positions {A : Type} (d : A) (l : list A) :
  map (fun i => nth i l d) (seq 0 (List.length l)) = l.
Proof.
  induction l as [|x l IH]; [reflexivity|].
  simpl. f_equal. rewrite <- seq_shift, map_map. exact IH.
Qed.

Lemma StronglySorted_weaken {A : Type} (R R' : A -> A -> Prop) (l : list A) :
  (forall x y, R x y -> R' x y) -> StronglySorted R l -> StronglySorted R' l.
Proof.
  intros W. induction 1 as [|x l S IH F]; constructor; [exact IH|].
  eapply Forall_impl; [|exact F]. apply W.
Qed.

Lemma StronglySorted_map {A B : Type} (R : B -> B -> Prop) (f : A -> B) (l : list A) :
  StronglySorted (fun x y => R (f x) (f y)) l -> StronglySorted R (map f l).
Proof.
  induction 1 as [|x l S IH F]; simpl; constructor; [exact IH|].
  now apply Forall_map.
Qed.

(** Under numpy's promise, [sort_values] returns the rows of the frame in
    non-decreasing order of rank. *)
Lemma sort_values_sorted (argsort : list Z -> list nat) (d : DataFrame) (s : state) :
  sorts argsort ->
  exists out,
    sort_values argsort d s = (Return {| columns := columns d; rows := out |}, s)
    /\ StronglySorted rank_le out
    /\ Permutation (rows d) out.
Proof.
  intros Hs. destruct (Hs (map ordem_importância (rows d))) as [P S].
  rewrite length_map in P.
  set (d0 := {| comando := ""; descrição := ""; ordem_importância := 0;
                como_pode_ser_usado := "" |}).
  exists (map (fun i => nth i (rows d) d0) (argsort (map ordem_importância (rows d)))).
  split; [|split].
  - unfold sort_values. rewrite (take_nth d0); [reflexivity|].
    eapply Permutation_Forall; [symmetry; exact P|].
    apply Forall_forall. intros i Hi. apply in_seq in Hi. lia.
  - apply StronglySorted_map.
    eapply StronglySorted_weaken; [|exact S].
    intros i j. unfold rank_le, key_le.
    change 0 with (ordem_importância d0).
    now rewrite !map_nth.
  - rewrite <- (map_nth_positions d0 (rows d)) at 1.
    apply Permutation_map. now symmetry.
Qed.

(** ** The filter *)

Lemma str_contains_plain (re_other : string -> compiled)
    (pat : string) (cells : list string) (s : state) :
  plain pat = true ->
  str_contains re_other pat cells s = (Return (map (contains pat) cells), s).
Proof.
  intros H. unfold str_contains, re_compile. rewrite sre_parse_plain by exact H.
  unfold ret. f_equal. f_equal. apply map_ext. intros c. apply search_lits.
Qed.

Lemma truthy_false (s : string) : truthy s = false <-> s = "".
Proof.
  destruct s; simpl; split; congruence.
Qed.

(** Without a search term the filter is the range test alone. *)
Lemma filter_commands_no_term (re_other : string -> compiled)
    (d : DataFrame) (shown : list event) (lo hi : Z) :
  filter_commands re_other
    {| min_importance := lo; max_importance := hi; search_term := "" |}
    {| df := Some d; page := shown |}
  = (Return {| columns := columns d; rows := filter (in_range lo hi) (rows d) |},
     {| df := Some d; page := shown |}).
Proof.
  unfold filter_commands, bind, get_df, ret. cbn.
  now rewrite select_map.
Qed.

(** C1 (amended): for every frame, every pair of bounds and every search
    term that is already in lower case and holds no character special to
    [re], [filter_commands] returns exactly the rows whose rank lies in
    [lo, hi] and for which the term is empty or occurs, case-insensitively,
    in the name or in the description; the rows keep the order of the
    frame. *)
Theorem filter_commands_plain_term
    (re_other : string -> compiled)
    (d : DataFrame) (shown : list event) (lo hi : Z) (term : string) :
  plain term = true ->
  lower term = term ->
  exists keep : CommandEntry -> bool,
    (forall e : CommandEntry,
        keep e = true <->
        lo <= ordem_importância e <= hi
        /\ (term = ""
            \/ Substring (lower term) (lower (comando e))
            \/ Substring (lower term) (lower (descrição e))))
    /\ filter_commands re_other
         {| min_importance := lo; max_importance := hi; search_term := term |}
         {| df := Some d; page := shown |}
       = (Return {| columns := columns d; rows := filter keep (rows d) |},
          {| df := Some d; page := shown |}).
Proof.
  intros Hplain Hlower.
  exists (fun e => in_range lo hi e
                   && (negb (truthy term)
                       || (contains term (lower (comando e))
                           || contains term (lower (descrição e))))).
  split.
  - intros e. rewrite Hlower. unfold in_range.
    rewrite !andb_true_iff, !orb_true_iff, negb_true_iff, truthy_false.
    rewrite !contains_Substring, !Z.leb_le. tauto.
  - destruct (truthy term) eqn:T.
    + unfold filter_commands, bind, get_df. cbn [df search_term].
      rewrite T. cbn [rows columns min_importance max_importance].
      rewrite select_map.
      rewrite !str_contains_plain by exact Hplain.
      unfold ret. rewrite !map_map, combine_map_or, select_map, filter_filter.
      reflexivity.
    + apply truthy_false in T. subst term.
      rewrite filter_commands_no_term. do 3 f_equal.
      apply filter_ext. intros e. simpl. now rewrite andb_true_r.
Qed.

Lemma filter_commands_plain_term_witness :
  exists keep : CommandEntry -> bool,
    (forall e : CommandEntry,
        keep e = true <->
        1 <= ordem_importância e <= 10
        /\ ("commit" = ""
            \/ Substring (lower "commit") (lower (comando e))
            \/ Substring (lower "commit") (lower (descrição e))))
    /\ filter_commands no_other_syntax
         {| min_importance := 1; max_importance := 10; search_term := "commit" |}
         {| df := Some sample; page := [] |}
       = (Return {| columns := columns sample; rows := filter keep (rows sample) |},
          {| df := Some sample; page := [] |}).
Proof.
  exact (filter_commands_plain_term no_other_syntax sample [] 1 10 "commit"
           eq_refl eq_refl).
Defined.

(** C1 (counterexample): on the sample frame with the bounds 1 and 10, the
    term [COMMIT] returns no row although it occurs, case-insensitively, in
    the name of [git commit]; and the term [.] returns both rows of the
    range although neither their names nor their descriptions hold a dot. *)
Lemma filter_commands_term_is_pattern :
  (forall re_other,
      fst (filter_commands re_other
             {| min_importance := 1; max_importance := 10; search_term := "COMMIT" |}
             {| df := Some sample; page := [] |})
      = Return {| columns := required_columns; rows := [] |})
  /\ Substring (lower "COMMIT") (lower (comando git_commit))
  /\ (forall re_other,
         fst (filter_commands re_other
                {| min_importance := 1; max_importance := 10; search_term := "." |}
                {| df := Some sample; page := [] |})
         = Return {| columns := required_columns; rows := [git_init; git_commit] |})
  /\ ~ Substring (lower ".") (lower (comando git_init))
  /\ ~ Substring (lower ".") (lower (descrição git_init)).
Proof.
  split; [intros re_other; reflexivity|].
  split; [apply contains_Substring; reflexivity|].
  split; [intros re_other; reflexivity|].
  split; apply not_contains_Substring; reflexivity.
Qed.

(** ** The loader *)

Lemma load_data_table (argsort : list Z -> list nat) (d : DataFrame) (s : state) :
  has_required_columns d = true ->
  load_data argsort (Table d) s
  = match sort_values argsort d {| df := Some d; page := page s |} with
    | (Return sorted, _) => (Return tt, {| df := Some sorted; page := page s |})
    | (Raise (Exception e), _) =>
        (Raise StopException,
         {| df := Some d; page := page s ++ [st_error (load_failed e)] |})
    | (Raise StopException, s') => (Raise StopException, s')
    end.
Proof.
  intros H. unfold load_data, validate_data, exists_, pd_read_csv.
  monad. rewrite H. monad. unfold sort_values.
  destruct (take _ _); monad; reflexivity.
Qed.

(** C2 (amended): for every frame the loader accepts, and whatever indexer
    numpy's sort returns within its contract, the loaded frame holds the rows
    of the file, each as often as the file does, in non-decreasing order of
    rank.  The order among rows of equal rank is left to the indexer. *)
Theorem load_data_sorted (argsort : list Z -> list nat) (d : DataFrame) (s : state) :
  sorts argsort ->
  has_required_columns d = true ->
  exists out : list CommandEntry,
    load_data argsort (Table d) s
    = (Return tt, {| df := Some {| columns := columns d; rows := out |};
                     page := page s |})
    /\ StronglySorted rank_le out
    /\ Permutation (rows d) out.
Proof.
  intros Hs Hc.
  destruct (sort_values_sorted argsort d {| df := Some d; page := page s |} Hs)
    as (out & E & S & P).
  exists out. rewrite load_data_table, E by exact Hc. now repeat split.
Qed.

Lemma load_data_sorted_witness :
  exists out : list CommandEntry,
    load_data argsort_stable (Table unsorted) start
    = (Return tt, {| df := Some {| columns := columns unsorted; rows := out |};
                     page := page start |})
    /\ StronglySorted rank_le out
    /\ Permutation (rows unsorted) out.
Proof.
  exact (load_data_sorted argsort_stable unsorted start
           argsort_stable_sorts eq_refl).
Defined.

(** The frame the loader stores, by the indexer of the sort. *)
Lemma load_data_by_indexer
    (argsort : list Z -> list nat) (d : DataFrame) (s : state) (d0 : CommandEntry) :
  sorts argsort ->
  has_required_columns d = true ->
  load_data argsort (Table d) s
  = (Return tt,
     {| df := Some {| columns := columns d;
                      rows := map (fun i => nth i (rows d) d0)
                                  (argsort (map ordem_importância (rows d))) |};
        page := page s |}).
Proof.
  intros Hs Hc. rewrite load_data_table by exact Hc. unfold sort_values.
  destruct (Hs (map ordem_importância (rows d))) as [P _].
  rewrite length_map in P.
  rewrite (take_nth d0); [reflexivity|].
  eapply Permutation_Forall; [symmetry; exact P|].
  apply Forall_forall. intros i Hi. apply in_seq in Hi. lia.
Qed.

(** The only indexer within the contract that keeps the tie order of
    [tied] is the stable one. *)
Lemma tied_indexer (indexer : list nat) :
  Permutation indexer (seq 0 4) ->
  StronglySorted (key_le [2; 2; 1; 1]) indexer ->
  keeps_tie_order (rows tied) (map (fun i => nth i (rows tied) git_clone) indexer) ->
  indexer = [2; 3; 0; 1]%nat.
Proof.
  intros P S K.
  assert (L := Permutation_length P).
  assert (B : Forall (fun i => (i < 4)%nat) indexer).
  { eapply Permutation_Forall; [symmetry; exact P|].
    apply Forall_forall. intros i Hi. apply in_seq in Hi. lia. }
  destruct indexer as [|i0 [|i1 [|i2 [|i3 [|]]]]]; try discriminate L.
  assert (K1 := K 1). assert (K2 := K 2). clear K P L.
  apply StronglySorted_inv in S as [S F0].
  apply StronglySorted_inv in S as [S F1].
  apply StronglySorted_inv in S as [_ F2].
  apply Forall_cons_iff in F0 as [L01 _], F1 as [L12 _], F2 as [L23 _].
  apply Forall_cons_iff in B as [B0 B].
  apply Forall_cons_iff in B as [B1 B].
  apply Forall_cons_iff in B as [B2 B].
  apply Forall_cons_iff in B as [B3 _].
  unfold key_le in *.
  destruct i0 as [|[|[|[|]]]]; try lia;
    destruct i1 as [|[|[|[|]]]]; try lia;
    destruct i2 as [|[|[|[|]]]]; try lia;
    destruct i3 as [|[|[|[|]]]]; try lia;
    cbn in L01, L12, L23; try lia;
    cbn in K1, K2; try discriminate K1; try discriminate K2; reflexivity.
Qed.

(** C2 (counterexample): the file [tied], whose rows have the ranks 2, 2,
    1, 1.  Whatever indexer the sort returns for these keys within its
    contract, unless it is the stable one (2, 3, 0, 1), the loaded frame
    does not keep the rows of equal rank in the order of the file; with the
    indexer 3, 2, 1, 0, which is within the contract, the loader stores the
    rows of the file in reverse. *)
Lemma load_data_breaks_ties :
  map ordem_importância (rows tied) = [2; 2; 1; 1]
  /\ (forall argsort : list Z -> list nat,
         sorts argsort ->
         argsort [2; 2; 1; 1] <> [2; 3; 0; 1]%nat ->
         exists out : list CommandEntry,
           load_data argsort (Table tied) start
           = (Return tt, {| df := Some {| columns := required_columns;
                                          rows := out |};
                            page := [] |})
           /\ ~ keeps_tie_order (rows tied) out)
  /\ sorts argsort_reversing
  /\ argsort_reversing [2; 2; 1; 1] = [3; 2; 1; 0]%nat
  /\ load_data argsort_reversing (Table tied) start
     = (Return tt, {| df := Some {| columns := required_columns;
                                    rows := [git_help; git_config;
                                             git_pull; git_clone] |};
                      page := [] |})
  /\ ~ keeps_tie_order (rows tied) [git_help; git_config; git_pull; git_clone].
Proof.
  split; [reflexivity|]. split; [|split; [|split; [|split]]].
  - intros argsort Hs Hne.
    exists (map (fun i => nth i (rows tied) git_clone) (argsort [2; 2; 1; 1])).
    split.
    + now rewrite (load_data_by_indexer argsort tied start git_clone Hs).
    + intros K. apply Hne. destruct (Hs [2; 2; 1; 1]) as [P S].
      now apply tied_indexer.
  - exact argsort_reversing_sorts.
  - reflexivity.
  - reflexivity.
  - intros K. specialize (K 1). discriminate K.
Qed.

(** C4: if the file is missing, cannot be parsed or lacks a required
    column, the constructor of the application raises [StopException] after
    one error box, and the script ends there: it raises the same exception
    in the same state, so neither [run] nor any of the stages it calls is
    started, and the page shows the error box and nothing of the data. *)
Theorem load_failure_halts
    (re_other : string -> compiled) (argsort : list Z -> list nat)
    (file : csv_file) (inp : Inputs) :
  load_fails file = true ->
  exists halted : state,
    __init__ argsort file start = (Raise StopException, halted)
    /\ script re_other argsort file inp start = (Raise StopException, halted)
    /\ page halted
       = [ set_page_config;
           st_error match file with
                    | NoFile => file_not_found
                    | Unreadable why => load_failed (CsvError why)
                    | Table _ => invalid_structure
                    end ].
Proof.
  intros H. unfold script, main, __init__, setup_page_config, load_data.
  destruct file as [|why|d]; cbn [load_fails exists_ pd_read_csv] in *.
  - eexists. monad. repeat split.
  - eexists. monad. repeat split.
  - apply negb_true_iff in H. eexists. unfold validate_data. monad.
    rewrite H. monad. repeat split.
Qed.

(** Whatever the file, the constructor either returns with a frame loaded
    or raises [StopException] after one error box; no other exception
    leaves it. *)
Lemma constructor_loads_or_stops
    (argsort : list Z -> list nat) (file : csv_file) :
  (exists d : DataFrame,
      __init__ argsort file start
      = (Return tt, {| df := Some d; page := [set_page_config] |}))
  \/ (exists (msg : error_text) (kept : option DataFrame),
         __init__ argsort file start
         = (Raise StopException,
            {| df := kept; page := [set_page_config; st_error msg] |})).
Proof.
  unfold __init__, setup_page_config.
  destruct file as [|why|d].
  - right. do 2 eexists. unfold load_data. cbn [exists_]. monad. reflexivity.
  - right. do 2 eexists. unfold load_data. cbn [exists_ pd_read_csv]. monad.
    reflexivity.
  - destruct (has_required_columns d) eqn:H.
    + destruct (take (argsort (map ordem_importância (rows d))) (rows d))
        as [sorted|] eqn:T; [left; eexists | right; do 2 eexists];
        unfold bind at 1; unfold emit at 1;
        rewrite load_data_table by exact H;
        unfold sort_values; rewrite T; monad; reflexivity.
    + right. do 2 eexists. unfold load_data, validate_data.
      cbn [exists_ pd_read_csv]. monad. rewrite H. monad. reflexivity.
Qed.

Lemma load_failure_halts_witness :
  exists halted : state,
    __init__ argsort_stable NoFile start = (Raise StopException, halted)
    /\ script no_other_syntax argsort_stable NoFile
         {| selected_range := Todos; search_text := ""; selected_index := None |}
         start
       = (Raise StopException, halted)
    /\ page halted = [set_page_config; st_error file_not_found].
Proof.
  exact (load_failure_halts no_other_syntax argsort_stable NoFile
           {| selected_range := Todos; search_text := ""; selected_index := None |}
           eq_refl).
Defined.

(** ** The filter, continued *)

(** C3 (the failing input): with the search term [*], whatever the frame
    and the bounds, [filter_commands] raises [re.error] instead of returning
    a frame. *)
Theorem filter_commands_raises
    (re_other : string -> compiled)
    (d : DataFrame) (shown : list event) (lo hi : Z) :
  filter_commands re_other
    {| min_importance := lo; max_importance := hi; search_term := "*" |}
    {| df := Some d; page := shown |}
  = (Raise (Exception (ReError "*")), {| df := Some d; page := shown |}).
Proof.
  unfold filter_commands. monad. cbn [search_term truthy].
  unfold str_contains, re_compile. cbn [sre_parse repeat_char existsb].
  reflexivity.
Qed.

(** The same input through the whole script: the user types [*] in the
    search box and the page ends in the error box of [main]. *)
Lemma script_search_star :
  script no_other_syntax argsort_stable (Table sample)
    {| selected_range := Todos; search_text := "*"; selected_index := None |}
    start
  = (Return tt,
     {| df := Some sample;
        page := [ set_page_config; header; sidebar_filters_title;
                  sidebar_selectbox range_labels; sidebar_text_input;
                  st_error (app_failed (ReError "*")); st_info_reload;
                  style_sheet ] |}).
Proof.
  reflexivity.
Qed.

(** C6 (counterexample): the frame [beyond] is what the loader yields for
    its file, and the filter with the bounds 1 and 157 and no search term
    returns none of its rows. *)
Lemma filter_commands_all_drops_rank :
  load_data argsort_stable (Table beyond) start
  = (Return tt, {| df := Some beyond; page := [] |})
  /\ (forall re_other,
         filter_commands re_other
           {| min_importance := 1; max_importance := 157; search_term := "" |}
           {| df := Some beyond; page := [] |}
         = (Return {| columns := columns beyond; rows := [] |},
            {| df := Some beyond; page := [] |}))
  /\ rows beyond = [git_bisect].
Proof.
  split; [reflexivity|]. split; [|reflexivity].
  intros re_other. rewrite filter_commands_no_term. reflexivity.
Qed.

(** C6 (amended): for every frame whose ranks all lie between 1 and 157,
    the filter with the bounds 1 and 157 and the empty search term returns
    the frame itself: every row, unchanged, in the same order. *)
Theorem filter_commands_all
    (re_other : string -> compiled)
    (d : DataFrame) (shown : list event) :
  Forall (fun e => 1 <= ordem_importância e <= 157) (rows d) ->
  filter_commands re_other
    {| min_importance := 1; max_importance := 157; search_term := "" |}
    {| df := Some d; page := shown |}
  = (Return d, {| df := Some d; page := shown |}).
Proof.
  intros H. rewrite filter_commands_no_term, filter_all.
  - now destruct d.
  - eapply Forall_impl; [|exact H]. intros e He. cbv beta in He.
    unfold in_range.
    apply andb_true_iff. split; apply Z.leb_le; lia.
Qed.

Lemma filter_commands_all_witness :
  filter_commands no_other_syntax
    {| min_importance := 1; max_importance := 157; search_term := "" |}
    {| df := Some sample; page := [] |}
  = (Return sample, {| df := Some sample; page := [] |}).
Proof.
  apply (filter_commands_all no_other_syntax sample []).
  repeat constructor; discriminate.
Defined.

(** C8: [filter_commands] leaves the state as it found it, whatever the
    filters and whether it returns or raises: [self.df] holds the same frame
    (the same rows with the same fields in the same order) afterwards. *)
Theorem filter_commands_keeps_state
    (re_other : string -> compiled)
    (filters : Filters) (s : state) :
  snd (filter_commands re_other filters s) = s
  /\ df (snd (filter_commands re_other filters s)) = df s.
Proof.
  assert (E : snd (filter_commands re_other filters s) = s).
  { unfold filter_commands. monad. destruct (df s) as [d|]; [|reflexivity].
    destruct (truthy (search_term filters)); [|reflexivity].
    unfold str_contains. destruct (re_compile re_other (search_term filters));
      monad; reflexivity. }
  split; [exact E | now rewrite E].
Qed.

(** ** The presenter *)

Lemma count_filter (keep : Z -> bool) (d : DataFrame) :
  count keep d
  = List.length (filter (fun e => keep (ordem_importância e)) (rows d)).
Proof.
  unfold count. now rewrite select_map.
Qed.

Lemma three_bands (l : list CommandEntry) :
  (List.length (filter (fun e => ordem_importância e <=? 10)%Z l)
   + List.length (filter (fun e => (10 <? ordem_importância e)
                                   && (ordem_importância e <=? 30))%Z l)
   + List.length (filter (fun e => 30 <? ordem_importância e)%Z l)
   = List.length l)%nat.
Proof.
  induction l as [|e l IH]; [reflexivity|].
  cbn [filter].
  destruct (Z.leb_spec (ordem_importância e) 10);
    destruct (Z.ltb_spec 10 (ordem_importância e));
    destruct (Z.leb_spec (ordem_importância e) 30);
    destruct (Z.ltb_spec 30 (ordem_importância e));
    cbn [andb List.length]; lia.
Qed.

(** C5: for every loaded frame, the three counts [render_statistics] shows
    (ranks up to 10, ranks above 10 and up to 30, ranks above 30), taken
    over the whole frame and not the filtered one, add up to the number of
    rows of the frame. *)
Theorem render_statistics_counts (d filtered_df : DataFrame) (shown : list event) :
  exists essential intermediate advanced : nat,
    render_statistics filtered_df {| df := Some d; page := shown |}
    = (Return tt,
       {| df := Some d;
          page := shown ++ [ sidebar_rule; statistics_title;
                             metric_total (List.length (rows d));
                             metric_filtered (List.length (rows filtered_df));
                             distribution essential intermediate advanced ] |})
    /\ essential
       = List.length (filter (fun e => ordem_importância e <=? 10) (rows d))
    /\ intermediate
       = List.length (filter (fun e => (10 <? ordem_importância e)
                                       && (ordem_importância e <=? 30)) (rows d))
    /\ advanced
       = List.length (filter (fun e => 30 <? ordem_importância e) (rows d))
    /\ (essential + intermediate + advanced = List.length (rows d))%nat.
Proof.
  do 3 eexists. split; [|split; [|split; [|split]]].
  - unfold render_statistics. monad. rewrite !count_filter.
    rewrite <- !app_assoc. reflexivity.
  - reflexivity.
  - reflexivity.
  - reflexivity.
  - apply three_bands.
Qed.

(** C7: for every filtered frame of [n] rows and every position [i < n]
    the select box answers, [render_command_selector] returns, and what it
    returns is the row at position [i] of that frame, with the name, the
    description, the rank and the usage text stored there. *)
Theorem render_command_selector_row
    (filtered_df : DataFrame) (inp : Inputs) (i : nat) (s : state) :
  (i < List.length (rows filtered_df))%nat ->
  selected_index inp = Some i ->
  exists row : CommandEntry,
    nth_error (rows filtered_df) i = Some row
    /\ render_command_selector filtered_df inp s
       = (Return (Some row),
          {| df := df s;
             page := page s ++ [ selector_title;
                                 selectbox (map display_text (rows filtered_df)) ] |}).
Proof.
  intros Hi Hsel.
  destruct (nth_error (rows filtered_df) i) as [row|] eqn:E.
  - exists row. split; [reflexivity|].
    unfold render_command_selector, empty.
    destruct (rows filtered_df) as [|r rs] eqn:R; [simpl in Hi; lia|].
    monad. rewrite Hsel, E. monad. now rewrite <- app_assoc.
  - apply nth_error_None in E. lia.
Qed.

Lemma render_command_selector_row_witness :
  exists row : CommandEntry,
    nth_error (rows sample) 1 = Some row
    /\ render_command_selector sample
         {| selected_range := Todos; search_text := ""; selected_index := Some 1%nat |}
         start
       = (Return (Some row),
          {| df := df start;
             page := page start ++ [ selector_title;
                                     selectbox (map display_text (rows sample)) ] |}).
Proof.
  apply (render_command_selector_row sample
           {| selected_range := Todos; search_text := ""; selected_index := Some 1%nat |}
           1 start).
  - simpl. lia.
  - reflexivity.
Defined.

Lemma for_each_code (pieces : list string) (s : state) :
  for_each pieces
    (fun example =>
       let example := strip example in
       if truthy example then emit (st_code example) else ret tt) s
  = (Return tt,
     {| df := df s;
        page := page s ++ map st_code (filter truthy (map strip pieces)) |}).
Proof.
  revert s. induction pieces as [|p ps IH]; intros s.
  - cbn [for_each map filter]. unfold ret. rewrite app_nil_r. now destruct s.
  - cbn [for_each map filter]. cbv zeta. unfold bind at 1.
    destruct (truthy (strip p)).
    + unfold emit at 1. rewrite IH. cbn [df page map].
      now rewrite <- app_assoc.
    + unfold ret at 1. now rewrite IH.
Qed.

(** C10: for every selected row, the code boxes [render_command_details]
    shows are got from the stored usage text by cutting it at every [", "]
    (the pieces joined by [", "] give the text back and no piece holds
    [", "]), stripping each piece and dropping the pieces that are empty
    after stripping; the boxes keep the order of the pieces. *)
Theorem render_command_details_usage (cmd : CommandEntry) (s : state) :
  exists pieces : list string,
    join ", " pieces = como_pode_ser_usado cmd
    /\ Forall (fun p => ~ Substring ", " p) pieces
    /\ render_command_details (Some cmd) s
       = (Return tt,
          {| df := df s;
             page := page s
                     ++ [ st_columns;
                          details_title (comando cmd);
                          details_badge
                            (get_importance_color (ordem_importância cmd))
                            (ordem_importância cmd);
                          details_description (descrição cmd);
                          usage_title ]
                     ++ map st_code (filter truthy (map strip pieces)) |}).
Proof.
  exists (split ", " (como_pode_ser_usado cmd)). split; [|split].
  - apply join_split. discriminate.
  - apply split_pieces. discriminate.
  - unfold render_command_details.
    do 5 (unfold bind at 1; unfold emit at 1).
    rewrite for_each_code. cbn [df page].
    rewrite <- !app_assoc. reflexivity.
Qed.

(** ** The sidebar *)

(** C9: the search term handed to the filter is the text of the input box
    in lower case with the white space at both ends removed; so for every
    frame a text of white space only is filtered exactly as the empty text
    is, and every row of the selected range is returned. *)
Theorem whitespace_search_text
    (re_other : string -> compiled)
    (inp : Inputs) (d : DataFrame) (shown : list event) :
  whitespace_only (search_text inp) = true ->
  let filtering (i : Inputs) : M DataFrame :=
    (filters <- render_sidebar_filters i ;; filter_commands re_other filters) in
  let blank : Inputs :=
    {| selected_range := selected_range inp;
       search_text := "";
       selected_index := selected_index inp |} in
  (forall (any : Inputs) (s : state),
      exists (filters : Filters) (s' : state) (l r : string),
        render_sidebar_filters any s = (Return filters, s')
        /\ lower (search_text any) = l ++ search_term filters ++ r
        /\ whitespace_only l = true /\ whitespace_only r = true
        /\ trimmed (search_term filters))
  /\ filtering inp {| df := Some d; page := shown |}
     = filtering blank {| df := Some d; page := shown |}
  /\ fst (filtering inp {| df := Some d; page := shown |})
     = Return {| columns := columns d;
                 rows := filter (in_range (fst (importance_ranges (selected_range inp)))
                                          (snd (importance_ranges (selected_range inp))))
                                (rows d) |}.
Proof.
  intros W filtering blank.
  assert (T : strip (lower (search_text inp)) = "").
  { rewrite lower_whitespace by exact W. now apply strip_whitespace. }
  split; [|split].
  - intros any s. unfold render_sidebar_filters.
    destruct (strip_spec (lower (search_text any))) as [(l & r & E & Wl & Wr) Tr].
    destruct (importance_ranges (selected_range any)) as [lo hi].
    do 2 eexists. exists l, r. monad.
    split; [reflexivity|]. cbn [search_term].
    split; [exact E|]. split; [exact Wl|]. split; [exact Wr | exact Tr].
  - unfold filtering, blank, render_sidebar_filters. cbn [selected_range search_text].
    rewrite T. reflexivity.
  - unfold filtering, render_sidebar_filters. rewrite T.
    destruct (importance_ranges (selected_range inp)) as [lo hi].
    monad. rewrite filter_commands_no_term. reflexivity.
Qed.

Lemma whitespace_search_text_witness :
  let inp : Inputs :=
    {| selected_range := Essenciais; search_text := "   "; selected_index := None |} in
  let filtering (i : Inputs) : M DataFrame :=
    (filters <- render_sidebar_filters i ;;
     filter_commands no_other_syntax filters) in
  fst (filtering inp {| df := Some sample; page := [] |})
  = Return {| columns := columns sample; rows := [git_init; git_commit] |}.
Proof.
  exact (proj2 (proj2 (whitespace_search_text no_other_syntax
           {| selected_range := Essenciais; search_text := "   ";
              selected_index := None |} sample [] eq_refl))).
Defined.

(** * Further properties of the code *)

(** ** The filter for every search term *)

(** What [filter_commands] does, whatever the term: the pattern is compiled
    (when there is a term), and the rows are kept by rank and by the search
    in the lowered name and description. *)
Lemma filter_commands_outcome
    (re_other : string -> compiled)
    (filters : Filters) (d : DataFrame) (shown : list event) :
  filter_commands re_other filters {| df := Some d; page := shown |}
  = match (if truthy (search_term filters)
           then re_compile re_other (search_term filters)
           else Pattern (fun _ => true)) with
    | Pattern found =>
        (Return {| columns := columns d;
                   rows := filter (kept filters found) (rows d) |},
         {| df := Some d; page := shown |})
    | Rejected e =>
        (Raise (Exception e), {| df := Some d; page := shown |})
    end.
Proof.
  unfold filter_commands. monad. cbn [rows columns].
  rewrite select_map.
  destruct (truthy (search_term filters)).
  - unfold str_contains.
    destruct (re_compile re_other (search_term filters)) as [found|e]; monad.
    + rewrite !map_map, combine_map_or, select_map, filter_filter.
      reflexivity.
    + reflexivity.
  - do 3 f_equal. apply filter_ext. intros e. unfold kept, in_range.
    now rewrite andb_true_r.
Qed.

Lemma kept_in_range (filters : Filters) (found : string -> bool) (e : CommandEntry) :
  kept filters found e = true ->
  min_importance filters <= ordem_importância e <= max_importance filters.
Proof.
  unfold kept, in_range. intros H.
  apply andb_true_iff in H as [H _]. apply andb_true_iff in H as [L U].
  apply Z.leb_le in L, U. lia.
Qed.

Lemma filter_length_le {A : Type} (f : A -> bool) (l : list A) :
  (List.length (filter f l) <= List.length l)%nat.
Proof.
  induction l as [|x l IH]; simpl; [lia|]. destruct (f x); simpl; lia.
Qed.

Lemma StronglySorted_filter {A : Type} (R : A -> A -> Prop) (f : A -> bool)
    (l : list A) :
  StronglySorted R l -> StronglySorted R (filter f l).
Proof.
  induction 1 as [|x l S IH F]; simpl; [constructor|].
  destruct (f x); [|exact IH]. constructor; [exact IH|].
  apply Forall_forall. intros y Hy. apply filter_In in Hy as [Hy _].
  rewrite Forall_forall in F. now apply F.
Qed.

(** X1: whatever the search term and the bounds, [filter_commands] either
    raises the exception [re.compile] raises for the term, with the state as
    it was, or returns a frame with the columns of the loaded one whose rows
    are rows of the loaded frame, in its order, all with a rank within the
    bounds, and no more of them than the loaded frame has.  It raises only
    when there is a search term. *)
Theorem filter_commands_part
    (re_other : string -> compiled)
    (filters : Filters) (d : DataFrame) (shown : list event) :
  (exists e : exception,
      truthy (search_term filters) = true
      /\ re_compile re_other (search_term filters) = Rejected e
      /\ filter_commands re_other filters {| df := Some d; page := shown |}
         = (Raise (Exception e), {| df := Some d; page := shown |}))
  \/ exists keep : CommandEntry -> bool,
       filter_commands re_other filters {| df := Some d; page := shown |}
       = (Return {| columns := columns d; rows := filter keep (rows d) |},
          {| df := Some d; page := shown |})
       /\ Forall (fun e => min_importance filters <= ordem_importância e
                           <= max_importance filters)
                 (filter keep (rows d))
       /\ incl (filter keep (rows d)) (rows d)
       /\ (List.length (filter keep (rows d)) <= List.length (rows d))%nat.
Proof.
  rewrite filter_commands_outcome.
  destruct (truthy (search_term filters)) eqn:T.
  - destruct (re_compile re_other (search_term filters)) as [found|e] eqn:C.
    + right. exists (kept filters found). split; [reflexivity|].
      split; [|split].
      * apply Forall_forall. intros x Hx. apply filter_In in Hx as [_ Hx].
        now apply kept_in_range in Hx.
      * intros x Hx. now apply filter_In in Hx.
      * apply filter_length_le.
    + left. exists e. now repeat split.
  - right. exists (kept filters (fun _ => true)). split; [reflexivity|].
    split; [|split].
    + apply Forall_forall. intros x Hx. apply filter_In in Hx as [_ Hx].
      now apply kept_in_range in Hx.
    + intros x Hx. now apply filter_In in Hx.
    + apply filter_length_le.
Qed.

Lemma kept_alike (filters : Filters) (found : string -> bool)
    (l1 l2 : list CommandEntry) :
  Forall2 alike l1 l2 ->
  map (kept filters found) l1 = map (kept filters found) l2.
Proof.
  induction 1 as [|a b l1 l2 (R & N & D) _ IH]; [reflexivity|].
  cbn [map]. f_equal; [|exact IH].
  unfold kept, in_range. now rewrite R, N, D.
Qed.

(** X2: the search does not see the case of the letters of the data,
    whatever the pattern: on two frames whose rows are pairwise alike (same
    rank, names and descriptions equal up to case) the filter raises the
    same exception, or returns from both frames the rows at the same
    positions: one mask, with one entry per row, selects both results. *)
Theorem filter_commands_ignores_case
    (re_other : string -> compiled)
    (filters : Filters) (d1 d2 : DataFrame) (shown : list event) :
  Forall2 alike (rows d1) (rows d2) ->
  match fst (filter_commands re_other filters {| df := Some d1; page := shown |}),
        fst (filter_commands re_other filters {| df := Some d2; page := shown |})
  with
  | Return out1, Return out2 =>
      exists mask : list bool,
        List.length mask = List.length (rows d1)
        /\ List.length mask = List.length (rows d2)
        /\ rows out1 = select (rows d1) mask
        /\ rows out2 = select (rows d2) mask
  | Raise r1, Raise r2 => r1 = r2
  | _, _ => False
  end.
Proof.
  intros H. rewrite !filter_commands_outcome.
  destruct (if truthy (search_term filters)
            then re_compile re_other (search_term filters)
            else Pattern (fun _ => true)) as [found|e]; cbn [fst rows].
  - exists (map (kept filters found) (rows d1)).
    split; [apply length_map|]. rewrite (kept_alike filters found _ _ H) at 1 3.
    split; [apply length_map|]. now rewrite !select_map.
  - reflexivity.
Qed.

Lemma filter_commands_ignores_case_witness :
  match fst (filter_commands no_other_syntax
               {| min_importance := 1; max_importance := 10; search_term := "commit" |}
               {| df := Some sample; page := [] |}),
        fst (filter_commands no_other_syntax
               {| min_importance := 1; max_importance := 10; search_term := "commit" |}
               {| df := Some shouted; page := [] |})
  with
  | Return out1, Return out2 =>
      exists mask : list bool,
        List.length mask = List.length (rows sample)
        /\ List.length mask = List.length (rows shouted)
        /\ rows out1 = select (rows sample) mask
        /\ rows out2 = select (rows shouted) mask
  | Raise r1, Raise r2 => r1 = r2
  | _, _ => False
  end.
Proof.
  apply (filter_commands_ignores_case no_other_syntax
           {| min_importance := 1; max_importance := 10; search_term := "commit" |}
           sample shouted []).
  repeat constructor.
Defined.

(** ** The loader, continued *)

Lemma load_data_rejects (argsort : list Z -> list nat) (d : DataFrame) (s : state) :
  has_required_columns d = false ->
  load_data argsort (Table d) s
  = (Raise StopException,
     {| df := Some d; page := page s ++ [st_error invalid_structure] |}).
Proof.
  intros H. unfold load_data, validate_data, exists_, pd_read_csv.
  monad. rewrite H. monad. reflexivity.
Qed.

Lemma has_required_columns_incl (d : DataFrame) :
  has_required_columns d = true <-> incl required_columns (columns d).
Proof.
  unfold has_required_columns. rewrite forallb_forall. unfold incl.
  split; intros H col Hc.
  - apply H in Hc. apply existsb_exists in Hc as (c & Hin & E).
    apply String.eqb_eq in E. now subst.
  - apply existsb_exists. exists col. split; [now apply H | apply String.eqb_refl].
Qed.

(** X3: under numpy's contract the loader accepts the frame of the file
    exactly when its column labels include the four required ones, in any
    order and with any other columns beside them; otherwise it does not
    return. *)
Theorem load_data_accepts (argsort : list Z -> list nat) (d : DataFrame) (s : state) :
  sorts argsort ->
  fst (load_data argsort (Table d) s) = Return tt
  <-> incl required_columns (columns d).
Proof.
  intros Hs. rewrite <- has_required_columns_incl.
  destruct (has_required_columns d) eqn:H.
  - destruct (load_data_sorted argsort d s Hs H) as (out & E & _).
    rewrite E. now split.
  - rewrite load_data_rejects by exact H. cbn [fst]. split; discriminate.
Qed.

Lemma load_data_accepts_witness :
  fst (load_data argsort_stable (Table reordered) start) = Return tt
  <-> incl required_columns (columns reordered).
Proof.
  exact (load_data_accepts argsort_stable reordered start argsort_stable_sorts).
Defined.

Lemma rank_unique (l : list CommandEntry) (a b : CommandEntry) :
  NoDup (map ordem_importância l) ->
  In a l -> In b l -> ordem_importância a = ordem_importância b -> a = b.
Proof.
  induction l as [|x l IH]; intros N Ha Hb E; [contradiction|].
  cbn [map] in N. apply NoDup_cons_iff in N as [Nx N].
  destruct Ha as [->|Ha], Hb as [->|Hb].
  - reflexivity.
  - elim Nx. rewrite E. now apply in_map.
  - elim Nx. rewrite <- E. now apply in_map.
  - now apply IH.
Qed.

(** A list without two rows of one rank has one sorted arrangement. *)
Lemma sorted_arrangement_unique (l1 l2 : list CommandEntry) :
  NoDup (map ordem_importância l1) ->
  Permutation l1 l2 ->
  StronglySorted rank_le l1 -> StronglySorted rank_le l2 ->
  l1 = l2.
Proof.
  revert l2. induction l1 as [|a l1 IH]; intros l2 N P S1 S2.
  - apply Permutation_nil in P. now subst.
  - destruct l2 as [|b l2].
    { symmetry in P. now apply Permutation_nil in P. }
    assert (E : a = b).
    { apply (rank_unique (a :: l1)); [exact N | now left | |].
      - apply (Permutation_in b (Permutation_sym P)). now left.
      - apply StronglySorted_inv in S1 as [_ F1].
        apply StronglySorted_inv in S2 as [_ F2].
        rewrite Forall_forall in F1, F2. unfold rank_le in *.
        assert (Hb : In b (a :: l1))
          by (apply (Permutation_in b (Permutation_sym P)); now left).
        assert (Ha : In a (b :: l2))
          by (apply (Permutation_in a P); now left).
        destruct Hb as [->|Hb]; [reflexivity|].
        destruct Ha as [->|Ha]; [reflexivity|].
        specialize (F1 b Hb). specialize (F2 a Ha). lia. }
    subst b. f_equal. apply IH.
    + cbn [map] in N. now apply NoDup_cons_iff in N.
    + now apply Permutation_cons_inv in P.
    + now apply StronglySorted_inv in S1.
    + now apply StronglySorted_inv in S2.
Qed.

(** X4: when no two rows of the file share a rank, the loaded frame does
    not depend on the sort numpy runs: every indexer within the contract
    loads the frame the stable sort loads. *)
Theorem load_data_unique_ranks
    (argsort : list Z -> list nat) (d : DataFrame) (s : state) :
  sorts argsort ->
  has_required_columns d = true ->
  NoDup (map ordem_importância (rows d)) ->
  load_data argsort (Table d) s = load_data argsort_stable (Table d) s.
Proof.
  intros Hs Hc N.
  destruct (load_data_sorted argsort d s Hs Hc) as (out1 & E1 & S1 & P1).
  destruct (load_data_sorted argsort_stable d s argsort_stable_sorts Hc)
    as (out2 & E2 & S2 & P2).
  rewrite E1, E2. do 4 f_equal.
  apply sorted_arrangement_unique; try assumption.
  - apply (Permutation_NoDup (Permutation_map _ P1)). exact N.
  - now rewrite <- P1.
Qed.

Lemma load_data_unique_ranks_witness :
  load_data argsort_reversing (Table unsorted) start
  = load_data argsort_stable (Table unsorted) start.
Proof.
  apply (load_data_unique_ranks argsort_reversing unsorted start
           argsort_reversing_sorts eq_refl).
  repeat constructor; simpl; intuition discriminate.
Defined.

(** X5: what the selector is given is in rank order: under numpy's
    contract, when loading the file and then filtering returns a frame, its
    rows are rows of the file, in non-decreasing order of rank, whatever the
    order of the file, the bounds and the search term. *)
Theorem loaded_then_filtered_sorted
    (re_other : string -> compiled) (argsort : list Z -> list nat)
    (d : DataFrame) (filters : Filters) (s s' : state) (out : DataFrame) :
  sorts argsort ->
  (load_data argsort (Table d) ;; filter_commands re_other filters) s
  = (Return out, s') ->
  StronglySorted rank_le (rows out) /\ incl (rows out) (rows d).
Proof.
  intros Hs. unfold bind at 1.
  destruct (has_required_columns d) eqn:Hc.
  - destruct (load_data_sorted argsort d s Hs Hc) as (sorted & E & S & P).
    rewrite E, filter_commands_outcome.
    destruct (if truthy (search_term filters)
              then re_compile re_other (search_term filters)
              else Pattern (fun _ => true)) as [found|e]; [|discriminate].
    intros H. injection H as <- _. cbn [rows]. split.
    + now apply StronglySorted_filter.
    + intros e He. apply filter_In in He as [He _].
      now apply (Permutation_in e (Permutation_sym P)).
  - rewrite load_data_rejects by exact Hc. discriminate.
Qed.

Lemma loaded_then_filtered_sorted_witness :
  StronglySorted rank_le [git_init; git_commit]
  /\ incl [git_init; git_commit] (rows unsorted).
Proof.
  exact (loaded_then_filtered_sorted no_other_syntax argsort_stable unsorted
           {| min_importance := 1; max_importance := 10; search_term := "git" |}
           start {| df := Some sample; page := [] |}
           {| columns := required_columns; rows := [git_init; git_commit] |}
           argsort_stable_sorts eq_refl).
Defined.

(** ** One run of the page *)

Lemma tame_ret {A : Type} (a : A) : tame (ret a).
Proof.
  intros s. cbn. repeat split; [discriminate|]. exists []. now rewrite app_nil_r.
Qed.

Lemma tame_raise {A : Type} (e : exception) : tame (@raise A (Exception e)).
Proof.
  intros s. cbn. repeat split; [discriminate|]. exists []. now rewrite app_nil_r.
Qed.

Lemma tame_emit (e : event) : tame (emit e).
Proof.
  intros s. cbn. repeat split; [discriminate|]. now exists [e].
Qed.

Lemma tame_get_df : tame get_df.
Proof.
  intros s. unfold get_df. destruct (df s) eqn:E; cbn;
    (repeat split; [discriminate | try exact E |]);
    exists []; now rewrite app_nil_r.
Qed.

Lemma tame_bind {A B : Type} (m : M A) (k : A -> M B) :
  tame m -> (forall a, tame (k a)) -> tame (bind m k).
Proof.
  intros Hm Hk s. unfold bind.
  destruct (Hm s) as (N & D & more & P).
  destruct (m s) as [[a|r] s1]; cbn [fst snd] in *.
  - destruct (Hk a s1) as (N' & D' & more' & P').
    split; [exact N'|]. split; [congruence|].
    exists (more ++ more')%list. now rewrite P', P, app_assoc.
  - split; [intros E; apply N; congruence|].
    split; [exact D|]. now exists more.
Qed.

Lemma tame_for_each {A : Type} (l : list A) (body : A -> M unit) :
  (forall x, tame (body x)) -> tame (for_each l body).
Proof.
  intros H. induction l as [|x l IH]; cbn [for_each].
  - apply tame_ret.
  - apply tame_bind; [apply H | intros _; exact IH].
Qed.

Lemma tame_filter_commands
    (re_other : string -> compiled) (filters : Filters) :
  tame (filter_commands re_other filters).
Proof.
  unfold filter_commands. apply tame_bind; [apply tame_get_df|]. intros d.
  cbv zeta. destruct (truthy (search_term filters)); [|apply tame_ret].
  unfold str_contains.
  destruct (re_compile re_other (search_term filters)).
  - repeat (apply tame_bind; [apply tame_ret | intros ?]). apply tame_ret.
  - apply tame_bind; [apply tame_raise | intros ?].
    apply tame_bind; [apply tame_raise | intros ?]. apply tame_ret.
Qed.

Lemma tame_render_sidebar_filters (inp : Inputs) : tame (render_sidebar_filters inp).
Proof.
  unfold render_sidebar_filters.
  destruct (importance_ranges (selected_range inp)) as [lo hi].
  repeat (apply tame_bind; [apply tame_emit | intros ?]). apply tame_ret.
Qed.

Lemma tame_render_statistics (filtered_df : DataFrame) :
  tame (render_statistics filtered_df).
Proof.
  unfold render_statistics.
  repeat (apply tame_bind; [apply tame_emit | intros ?]).
  apply tame_bind; [apply tame_get_df | intros ?]. cbv zeta.
  repeat (apply tame_bind; [apply tame_emit | intros ?]). apply tame_emit.
Qed.

Lemma tame_render_command_selector (filtered_df : DataFrame) (inp : Inputs) :
  tame (render_command_selector filtered_df inp).
Proof.
  unfold render_command_selector. destruct (empty filtered_df).
  - apply tame_bind; [apply tame_emit | intros ?]. apply tame_ret.
  - repeat (apply tame_bind; [apply tame_emit | intros ?]).
    destruct (selected_index inp) as [i|]; [|apply tame_ret].
    destruct (nth_error (rows filtered_df) i); [apply tame_ret | apply tame_raise].
Qed.

Lemma tame_render_command_details (selected_command : option CommandEntry) :
  tame (render_command_details selected_command).
Proof.
  unfold render_command_details.
  destruct selected_command as [cmd|]; [|apply tame_ret].
  repeat (apply tame_bind; [apply tame_emit | intros ?]).
  apply tame_for_each. intros x. cbv zeta.
  destruct (truthy (strip x)); [apply tame_emit | apply tame_ret].
Qed.

Lemma tame_run (re_other : string -> compiled) (inp : Inputs) :
  tame (run re_other inp).
Proof.
  unfold run, render_header, render_footer.
  apply tame_bind; [apply tame_emit | intros ?].
  apply tame_bind; [apply tame_render_sidebar_filters | intros filters].
  apply tame_bind; [apply tame_filter_commands | intros filtered_df].
  apply tame_bind; [apply tame_render_statistics | intros ?].
  apply tame_bind; [apply tame_render_command_selector | intros selected].
  apply tame_bind.
  - destruct selected; [apply tame_render_command_details | apply tame_emit].
  - intros ?. apply tame_bind; [apply tame_get_df | intros ?]. apply tame_emit.
Qed.

(** X6: one run of the page, whatever the widgets answer and whether it
    ends normally or in an exception, leaves [self.df] as it was, takes
    nothing off the page (what was shown stays, in place, before what the
    run adds) and never raises [StopException]. *)
Theorem run_keeps_frame
    (re_other : string -> compiled) (inp : Inputs) (s : state) :
  df (snd (run re_other inp s)) = df s
  /\ (exists more : list event,
         page (snd (run re_other inp s)) = (page s ++ more)%list)
  /\ fst (run re_other inp s) <> Raise StopException.
Proof.
  destruct (tame_run re_other inp s) as (N & D & P). now repeat split.
Qed.

(** X7: once the constructor has returned, the script runs to its end
    whatever the widgets answer: every exception of the run is caught by
    [main], the script returns, the style sheet is the last thing put on
    the page, and the frame the constructor loaded is still the frame of
    the application. *)
Theorem script_ends
    (re_other : string -> compiled) (argsort : list Z -> list nat)
    (file : csv_file) (inp : Inputs) (loaded : state) :
  __init__ argsort file start = (Return tt, loaded) ->
  exists shown : list event,
    script re_other argsort file inp start
    = (Return tt, {| df := df loaded;
                     page := page loaded ++ shown ++ [style_sheet] |}).
Proof.
  intros H. unfold script, main.
  unfold bind at 1. unfold try_except. unfold bind at 1. rewrite H.
  destruct (tame_run re_other inp loaded) as (N & D & more & P).
  destruct (run re_other inp loaded) as [[[]|[|e]] s1]; cbn [fst snd] in *.
  - exists more. unfold emit. cbn [df page]. now rewrite D, P, app_assoc.
  - now elim N.
  - exists (more ++ [st_error (app_failed e); st_info_reload])%list.
    monad. rewrite D, P, <- !app_assoc. reflexivity.
Qed.

Lemma script_ends_witness :
  exists shown : list event,
    script no_other_syntax argsort_stable (Table unsorted)
      {| selected_range := Todos; search_text := "(";
         selected_index := Some 7%nat |} start
    = (Return tt, {| df := Some sample;
                     page := [set_page_config] ++ shown ++ [style_sheet] |}).
Proof.
  exact (script_ends no_other_syntax argsort_stable (Table unsorted)
           {| selected_range := Todos; search_text := "(";
              selected_index := Some 7%nat |}
           {| df := Some sample; page := [set_page_config] |} eq_refl).
Defined.

(** ** The ranges of the sidebar and the presenter *)

Lemma colour_of_band (label : range_label) (k : Z) :
  label <> Todos ->
  in_band label k ->
  get_importance_color k
  = match label with
    | Essenciais => "#E74C3C"
    | Intermediarios => "#F39C12"
    | Avancados => "#3498DB"
    | Tecnicos => "#27AE60"
    | _ => "#8E44AD"
    end.
Proof.
  intros NT. unfold in_band, get_importance_color.
  destruct label; cbn [importance_ranges fst snd]; intros [L U];
    try (now elim NT);
    repeat match goal with
           | |- context [?a <=? ?b] => destruct (Z.leb_spec a b); try lia
           end; reflexivity.
Qed.

(** X8: the colour of the badge follows the ranges of the sidebar: of two
    ranks, each within one of the five ranges other than "all commands",
    the badges have the same colour exactly when the two ranges are the
    same one. *)
Theorem colour_per_band (label1 label2 : range_label) (k1 k2 : Z) :
  label1 <> Todos -> label2 <> Todos ->
  in_band label1 k1 -> in_band label2 k2 ->
  get_importance_color k1 = get_importance_color k2 <-> label1 = label2.
Proof.
  intros N1 N2 B1 B2.
  rewrite (colour_of_band label1 k1 N1 B1), (colour_of_band label2 k2 N2 B2).
  destruct label1, label2; split; intros H;
    try reflexivity; try discriminate H; try (now elim N1); now elim N2.
Qed.

Lemma colour_per_band_witness :
  get_importance_color 7 = get_importance_color 130 <-> Essenciais = Especificos.
Proof.
  apply (colour_per_band Essenciais Especificos 7 130);
    unfold in_band; cbn; try discriminate; lia.
Defined.

Lemma filter_none {A : Type} (f : A -> bool) (l : list A) :
  (forall y, In y l -> f y = false) -> filter f l = [].
Proof.
  induction l as [|x l IH]; intros H; [reflexivity|].
  cbn [filter]. rewrite (H x (or_introl eq_refl)).
  apply IH. intros y Hy. apply H. now right.
Qed.

Lemma filter_band_split (lo m hi : Z) (l : list CommandEntry) :
  lo <= m + 1 -> m <= hi ->
  StronglySorted rank_le l ->
  filter (in_range lo hi) l
  = (filter (in_range lo m) l ++ filter (in_range (m + 1) hi) l)%list.
Proof.
  intros Hlo Hhi. induction 1 as [|x l S IH F]; [reflexivity|].
  cbn [filter].
  destruct (Z.leb_spec (ordem_importância x) m) as [Le|Gt].
  - assert (E1 : in_range lo hi x = in_range lo m x).
    { unfold in_range. f_equal.
      destruct (Z.leb_spec (ordem_importância x) hi),
               (Z.leb_spec (ordem_importância x) m); try reflexivity; lia. }
    assert (E2 : in_range (m + 1) hi x = false).
    { unfold in_range. apply andb_false_iff. left. apply Z.leb_gt. lia. }
    rewrite E1, E2, IH. now destruct (in_range lo m x).
  - assert (E0 : forall y, In y (x :: l) -> in_range lo m y = false
                           /\ in_range lo hi y = in_range (m + 1) hi y).
    { intros y Hy. assert (m < ordem_importância y).
      { destruct Hy as [<-|Hy]; [exact Gt|].
        rewrite Forall_forall in F. specialize (F y Hy). unfold rank_le in F. lia. }
      unfold in_range. split.
      - apply andb_false_iff. right. apply Z.leb_gt. lia.
      - f_equal. destruct (Z.leb_spec lo (ordem_importância y)),
                          (Z.leb_spec (m + 1) (ordem_importância y));
          try reflexivity; lia. }
    change (filter (in_range lo hi) (x :: l)
            = (filter (in_range lo m) (x :: l)
               ++ filter (in_range (m + 1) hi) (x :: l))%list).
    replace (filter (in_range lo m) (x :: l)) with (@nil CommandEntry).
    + apply filter_ext_in. intros y Hy. now apply E0.
    + symmetry. apply filter_none. intros y Hy. now apply E0.
Qed.

Lemma filter_commands_band
    (re_other : string -> compiled)
    (label : range_label) (d : DataFrame) (shown : list event) :
  filter_commands re_other (band_filters label) {| df := Some d; page := shown |}
  = (Return {| columns := columns d; rows := band_rows label d |},
     {| df := Some d; page := shown |}).
Proof.
  unfold band_filters. now rewrite filter_commands_no_term.
Qed.

Lemma sidebar_band_filters (inp : Inputs) (s : state) :
  search_text inp = "" ->
  fst (render_sidebar_filters inp s) = Return (band_filters (selected_range inp)).
Proof.
  intros E. unfold render_sidebar_filters, band_filters. rewrite E.
  destruct (importance_ranges (selected_range inp)). reflexivity.
Qed.

(** X9: on a frame in rank order (as the loader leaves it) the list the
    filter returns for "all commands" with an empty search box is the lists
    it returns for the five ranges, one after the other. *)
Theorem bands_make_all
    (re_other : string -> compiled)
    (d : DataFrame) (shown : list event) :
  StronglySorted rank_le (rows d) ->
  (forall label : range_label,
      filter_commands re_other (band_filters label) {| df := Some d; page := shown |}
      = (Return {| columns := columns d; rows := band_rows label d |},
         {| df := Some d; page := shown |}))
  /\ band_rows Todos d
     = (band_rows Essenciais d ++ band_rows Intermediarios d
        ++ band_rows Avancados d ++ band_rows Tecnicos d
        ++ band_rows Especificos d)%list.
Proof.
  intros S. split; [intros label; apply filter_commands_band|].
  unfold band_rows. cbn [importance_ranges fst snd].
  rewrite (filter_band_split 1 10 157) by (try lia; exact S).
  rewrite (filter_band_split (10 + 1) 30 157) by (try lia; exact S).
  rewrite (filter_band_split (30 + 1) 60 157) by (try lia; exact S).
  rewrite (filter_band_split (60 + 1) 100 157) by (try lia; exact S).
  reflexivity.
Qed.

Lemma bands_make_all_witness :
  band_rows Todos sample
  = (band_rows Essenciais sample ++ band_rows Intermediarios sample
     ++ band_rows Avancados sample ++ band_rows Tecnicos sample
     ++ band_rows Especificos sample)%list.
Proof.
  apply (bands_make_all no_other_syntax sample []).
  repeat constructor; vm_compute; discriminate.
Defined.

Lemma count_band_split (lo m hi : Z) (l : list CommandEntry) :
  lo <= m + 1 -> m <= hi ->
  List.length (filter (in_range lo hi) l)
  = (List.length (filter (in_range lo m) l)
     + List.length (filter (in_range (m + 1) hi) l))%nat.
Proof.
  intros Hlo Hhi. induction l as [|x l IH]; [reflexivity|].
  cbn [filter].
  set (A := filter (in_range lo hi) l) in *.
  set (B := filter (in_range lo m) l) in *.
  set (C := filter (in_range (m + 1) hi) l) in *.
  unfold in_range.
  destruct (Z.leb_spec lo (ordem_importância x));
    destruct (Z.leb_spec (ordem_importância x) hi);
    destruct (Z.leb_spec (ordem_importância x) m);
    destruct (Z.leb_spec (m + 1) (ordem_importância x));
    cbn [andb List.length]; lia.
Qed.

(** X10: when every rank of the frame lies between 1 and 157, the three
    numbers [render_statistics] shows agree with the sidebar: the first is
    the number of rows the filter lists for the range 1-10, the second the
    number for 11-30, the third the sum of the numbers for 31-60, 61-100
    and 101-157. *)
Theorem statistics_match_bands
    (re_other : string -> compiled)
    (d filtered_df : DataFrame) (shown : list event) :
  Forall (fun e => 1 <= ordem_importância e <= 157) (rows d) ->
  (forall label : range_label,
      filter_commands re_other (band_filters label) {| df := Some d; page := shown |}
      = (Return {| columns := columns d; rows := band_rows label d |},
         {| df := Some d; page := shown |}))
  /\ render_statistics filtered_df {| df := Some d; page := shown |}
     = (Return tt,
        {| df := Some d;
           page := shown ++ [ sidebar_rule; statistics_title;
                              metric_total (List.length (rows d));
                              metric_filtered (List.length (rows filtered_df));
                              distribution
                                (List.length (band_rows Essenciais d))
                                (List.length (band_rows Intermediarios d))
                                (List.length (band_rows Avancados d)
                                 + List.length (band_rows Tecnicos d)
                                 + List.length (band_rows Especificos d)) ] |}).
Proof.
  intros H. split; [intros label; apply filter_commands_band|].
  unfold render_statistics. monad. rewrite !count_filter, <- !app_assoc.
  unfold band_rows. cbn [importance_ranges fst snd].
  assert (E : forall keep lo hi,
             (forall k, 1 <= k <= 157 -> keep k = (lo <=? k) && (k <=? hi)) ->
             List.length (filter (fun e => keep (ordem_importância e)) (rows d))
             = List.length (filter (in_range lo hi) (rows d))).
  { intros keep lo hi K. f_equal. apply filter_ext_in. intros e He.
    rewrite Forall_forall in H. unfold in_range. now apply K, H. }
  assert (E1 : List.length (filter (fun e => ordem_importância e <=? 10) (rows d))
               = List.length (filter (in_range 1 10) (rows d))).
  { apply (E (fun k => k <=? 10)). intros k Hk.
    destruct (Z.leb_spec k 10), (Z.leb_spec 1 k); try reflexivity; lia. }
  assert (E2 : List.length (filter (fun e => (10 <? ordem_importância e)
                                             && (ordem_importância e <=? 30))
                                   (rows d))
               = List.length (filter (in_range 11 30) (rows d))).
  { apply (E (fun k => (10 <? k) && (k <=? 30))). intros k Hk.
    destruct (Z.ltb_spec 10 k), (Z.leb_spec 11 k); try reflexivity; lia. }
  assert (E3 : List.length (filter (fun e => 30 <? ordem_importância e) (rows d))
               = List.length (filter (in_range 31 157) (rows d))).
  { apply (E (fun k => 30 <? k)). intros k Hk.
    destruct (Z.ltb_spec 30 k), (Z.leb_spec 31 k), (Z.leb_spec k 157);
      try reflexivity; lia. }
  rewrite E1, E2, E3.
  rewrite (count_band_split 31 100 157), (count_band_split 31 60 100) by lia.
  reflexivity.
Qed.

Lemma statistics_match_bands_witness :
  render_statistics sample {| df := Some sample; page := [] |}
  = (Return tt,
     {| df := Some sample;
        page := [ sidebar_rule; statistics_title; metric_total 3;
                  metric_filtered 3; distribution 2 0 1 ] |}).
Proof.
  apply (statistics_match_bands no_other_syntax sample sample []).
  repeat constructor; discriminate.
Defined.

(** ** What a run shows *)

Lemma filter_commands_any_page
    (re_other : string -> compiled)
    (filters : Filters) (d out : DataFrame) (shown : list event) :
  fst (filter_commands re_other filters {| df := Some d; page := shown |})
  = Return out ->
  forall pg : list event,
    filter_commands re_other filters {| df := Some d; page := pg |}
    = (Return out, {| df := Some d; page := pg |}).
Proof.
  intros H pg. rewrite filter_commands_outcome in *.
  destruct (if truthy (search_term filters)
            then re_compile re_other (search_term filters)
            else Pattern (fun _ => true)); [|discriminate].
  cbn [fst] in H. now injection H as <-.
Qed.

(** The run up to the selector, when the filter returns. *)
Lemma run_top
    (re_other : string -> compiled)
    (inp : Inputs) (d out : DataFrame) (shown : list event) :
  fst (filter_commands re_other (sidebar_filters inp)
         {| df := Some d; page := shown |}) = Return out ->
  run re_other inp {| df := Some d; page := shown |}
  = (selected_command <- render_command_selector out inp ;;
     (match selected_command with
      | Some _ => render_command_details selected_command
      | None => emit welcome
      end) ;;
     render_footer)
      {| df := Some d; page := shown ++ page_top d out |}.
Proof.
  intros H. assert (F := filter_commands_any_page _ _ _ _ _ H). clear H.
  unfold run, render_header, render_sidebar_filters, sidebar_filters in *.
  destruct (importance_ranges (selected_range inp)) as [lo hi].
  cbn [fst snd] in F.
  do 5 (unfold bind at 1; unfold emit at 1; cbn [df page]).
  unfold ret at 1. unfold bind at 1. rewrite F.
  unfold bind at 1. unfold render_statistics.
  do 2 (unfold bind at 1; unfold emit at 1; cbn [df page]).
  unfold bind at 1. unfold get_df at 1. cbn [df page].
  do 2 (unfold bind at 1; unfold emit at 1; cbn [df page]).
  unfold emit at 1. cbn [df page].
  unfold page_top. rewrite <- !app_assoc. reflexivity.
Qed.

(** X11: when the filter returns no row, the run does not fail: it shows
    the header, the sidebar, the statistics with 0 filtered commands, the
    warning that nothing was found, the welcome box and the footer with the
    number of rows of the whole frame; no select box and no details. *)
Theorem run_nothing_found
    (re_other : string -> compiled)
    (inp : Inputs) (d out : DataFrame) (shown : list event) :
  fst (filter_commands re_other (sidebar_filters inp)
         {| df := Some d; page := shown |}) = Return out ->
  rows out = [] ->
  run re_other inp {| df := Some d; page := shown |}
  = (Return tt,
     {| df := Some d;
        page := shown ++ page_top d out
                ++ [ st_warning_none_found; welcome;
                     footer (List.length (rows d)) ] |}).
Proof.
  intros H E. rewrite (run_top _ _ _ _ _ H).
  unfold render_command_selector, empty, render_footer. rewrite E.
  monad. rewrite <- !app_assoc. reflexivity.
Qed.

Lemma run_nothing_found_witness :
  run no_other_syntax
    {| selected_range := Tecnicos; search_text := ""; selected_index := None |}
    {| df := Some sample; page := [] |}
  = (Return tt,
     {| df := Some sample;
        page := [] ++ page_top sample {| columns := required_columns; rows := [] |}
                ++ [ st_warning_none_found; welcome; footer 3 ] |}).
Proof.
  exact (run_nothing_found no_other_syntax
           {| selected_range := Tecnicos; search_text := ""; selected_index := None |}
           sample {| columns := required_columns; rows := [] |} []
           eq_refl eq_refl).
Defined.

(** X12: when the filter returns rows and the select box answers a position
    among them, the run shows, after the statistics, the select box with one
    label per row, the details of the row at that position (name, badge,
    description, one code box per usage example) and the footer; it does not
    show the welcome box. *)
Theorem run_shows_selected
    (re_other : string -> compiled)
    (inp : Inputs) (d out : DataFrame) (shown : list event)
    (i : nat) (row : CommandEntry) :
  fst (filter_commands re_other (sidebar_filters inp)
         {| df := Some d; page := shown |}) = Return out ->
  selected_index inp = Some i ->
  nth_error (rows out) i = Some row ->
  run re_other inp {| df := Some d; page := shown |}
  = (Return tt,
     {| df := Some d;
        page := shown ++ page_top d out
                ++ [ selector_title;
                     selectbox (map display_text (rows out));
                     st_columns;
                     details_title (comando row);
                     details_badge (get_importance_color (ordem_importância row))
                                   (ordem_importância row);
                     details_description (descrição row);
                     usage_title ]
                ++ map st_code
                     (filter truthy
                        (map strip (split ", " (como_pode_ser_usado row))))
                ++ [ footer (List.length (rows d)) ] |}).
Proof.
  intros H Hi Hn. rewrite (run_top _ _ _ _ _ H).
  unfold render_command_selector, empty, render_footer.
  destruct (rows out) as [|r rs] eqn:R; [now destruct i|].
  rewrite Hi, Hn. unfold render_command_details.
  do 2 (unfold bind at 1; unfold emit at 1; cbn [df page]).
  unfold bind at 1. unfold ret at 1. unfold bind at 1.
  do 5 (unfold bind at 1; unfold emit at 1; cbn [df page]).
  rewrite for_each_code. cbn [df page]. monad.
  rewrite <- !app_assoc. reflexivity.
Qed.

Lemma run_shows_selected_witness :
  run no_other_syntax
    {| selected_range := Essenciais; search_text := " COMMIT";
       selected_index := Some 0%nat |}
    {| df := Some sample; page := [] |}
  = (Return tt,
     {| df := Some sample;
        page := [] ++ page_top sample
                        {| columns := required_columns; rows := [git_commit] |}
                ++ [ selector_title;
                     selectbox (map display_text [git_commit]);
                     st_columns;
                     details_title (comando git_commit);
                     details_badge (get_importance_color 5) 5;
                     details_description (descrição git_commit);
                     usage_title ]
                ++ map st_code
                     (filter truthy
                        (map strip (split ", " (como_pode_ser_usado git_commit))))
                ++ [ footer 3 ] |}).
Proof.
  exact (run_shows_selected no_other_syntax
           {| selected_range := Essenciais; search_text := " COMMIT";
              selected_index := Some 0%nat |}
           sample {| columns := required_columns; rows := [git_commit] |} []
           0%nat git_commit eq_refl eq_refl eq_refl).
Defined.

(** X13: when [re.compile] raises for the search term, the run stops at
    the filter: it raises that exception with only the header and the three
    widgets of the sidebar on the page, so no statistics, no select box and
    no footer are shown for that run, and the loaded frame is kept. *)
Theorem run_pattern_rejected
    (re_other : string -> compiled)
    (inp : Inputs) (d : DataFrame) (shown : list event) (e : exception) :
  truthy (search_term (sidebar_filters inp)) = true ->
  re_compile re_other (search_term (sidebar_filters inp)) = Rejected e ->
  run re_other inp {| df := Some d; page := shown |}
  = (Raise (Exception e),
     {| df := Some d;
        page := shown ++ [ header; sidebar_filters_title;
                           sidebar_selectbox range_labels;
                           sidebar_text_input ] |}).
Proof.
  intros T C.
  assert (F : forall pg,
             filter_commands re_other (sidebar_filters inp)
               {| df := Some d; page := pg |}
             = (Raise (Exception e), {| df := Some d; page := pg |})).
  { intros pg. now rewrite filter_commands_outcome, T, C. }
  unfold run, render_header, render_sidebar_filters, sidebar_filters in *.
  destruct (importance_ranges (selected_range inp)) as [lo hi].
  cbn [fst snd search_term] in F |- *.
  do 5 (unfold bind at 1; unfold emit at 1; cbn [df page]).
  unfold ret at 1. unfold bind at 1. rewrite F.
  rewrite <- !app_assoc. reflexivity.
Qed.

Lemma run_pattern_rejected_witness :
  run no_other_syntax
    {| selected_range := Todos; search_text := "+x"; selected_index := None |}
    {| df := Some sample; page := [] |}
  = (Raise (Exception (ReError "+x")),
     {| df := Some sample;
        page := [] ++ [ header; sidebar_filters_title;
                        sidebar_selectbox range_labels; sidebar_text_input ] |}).
Proof.
  exact (run_pattern_rejected no_other_syntax
           {| selected_range := Todos; search_text := "+x"; selected_index := None |}
           sample [] (ReError "+x") eq_refl eq_refl).
Defined.

(** ** The usage examples *)

Lemma Substring_strip (sep p : string) :
  Substring sep (strip p) -> Substring sep p.
Proof.
  intros (b & a & E).
  destruct (strip_spec p) as [(l & r & P & _) _].
  exists (l ++ b), (a ++ r). rewrite P, E, !append_assoc. reflexivity.
Qed.

(** X14: every code box of the details holds a usage example that is not
    empty, has no white space at its ends and holds no [", "]; there are at
    most as many boxes as the usage text has pieces between its [", "]. *)
Theorem usage_boxes (cmd : CommandEntry) (s : state) :
  exists items : list string,
    page (snd (render_command_details (Some cmd) s))
    = (page s
       ++ [ st_columns;
            details_title (comando cmd);
            details_badge (get_importance_color (ordem_importância cmd))
                          (ordem_importância cmd);
            details_description (descrição cmd);
            usage_title ]
       ++ map st_code items)%list
    /\ Forall (fun x => x <> "" /\ trimmed x /\ ~ Substring ", " x) items
    /\ (List.length items
        <= List.length (split ", " (como_pode_ser_usado cmd)))%nat.
Proof.
  exists (filter truthy (map strip (split ", " (como_pode_ser_usado cmd)))).
  split; [|split].
  - unfold render_command_details.
    do 5 (unfold bind at 1; unfold emit at 1).
    rewrite for_each_code. cbn [df page snd].
    rewrite <- !app_assoc. reflexivity.
  - apply Forall_forall. intros x Hx.
    apply filter_In in Hx as [Hx T]. apply in_map_iff in Hx as (p & <- & Hp).
    split; [|split].
    + intros E. rewrite E in T. discriminate.
    + apply strip_spec.
    + intros S. apply Substring_strip in S.
      assert (F := split_pieces ", " (como_pode_ser_usado cmd)).
      rewrite Forall_forall in F. apply (F ltac:(discriminate) p Hp S).
  - etransitivity; [apply filter_length_le|]. now rewrite length_map.
Qed.

(** ** The search term *)

Lemma isspace_char_lower (c : ascii) : isspace (char_lower c) = isspace c.
Proof.
  destruct c as [[] [] [] [] [] [] [] []]; reflexivity.
Qed.

Lemma char_lower_idempotent (c : ascii) : char_lower (char_lower c) = char_lower c.
Proof.
  destruct c as [[] [] [] [] [] [] [] []]; reflexivity.
Qed.

Lemma lower_idempotent (s : string) : lower (lower s) = lower s.
Proof.
  induction s as [|c r IH]; [reflexivity|].
  cbn [lower]. now rewrite char_lower_idempotent, IH.
Qed.

Lemma lower_lstrip (s : string) : lower (lstrip s) = lstrip (lower s).
Proof.
  induction s as [|c r IH]; [reflexivity|].
  cbn [lstrip lower]. rewrite isspace_char_lower.
  destruct (isspace c); [exact IH | reflexivity].
Qed.

Lemma lower_rstrip (s : string) : lower (rstrip s) = rstrip (lower s).
Proof.
  induction s as [|c r IH]; [reflexivity|].
  cbn [rstrip lower]. rewrite <- IH, isspace_char_lower.
  destruct (rstrip r) as [|d t]; cbn [lower].
  - now destruct (isspace c).
  - reflexivity.
Qed.

Lemma lower_strip (s : string) : lower (strip s) = strip (lower s).
Proof.
  unfold strip. now rewrite lower_lstrip, lower_rstrip.
Qed.

Lemma strip_idempotent (s : string) : strip (strip s) = strip s.
Proof.
  destruct (strip_spec s) as [_ [L R]].
  unfold strip at 1. now rewrite R, L.
Qed.

(** X15: the search term the sidebar hands to the filter is normalised,
    whatever is typed: it is in lower case, it has no white space at its
    ends, and typing the term itself gives the same filters again. *)
Theorem search_term_normal (inp : Inputs) (s : state) :
  fst (render_sidebar_filters inp s) = Return (sidebar_filters inp)
  /\ lower (search_term (sidebar_filters inp)) = search_term (sidebar_filters inp)
  /\ trimmed (search_term (sidebar_filters inp))
  /\ sidebar_filters
       {| selected_range := selected_range inp;
          search_text := search_term (sidebar_filters inp);
          selected_index := selected_index inp |}
     = sidebar_filters inp.
Proof.
  split; [|split; [|split]].
  - unfold render_sidebar_filters, sidebar_filters.
    destruct (importance_ranges (selected_range inp)). reflexivity.
  - cbn [sidebar_filters search_term]. now rewrite lower_strip, lower_idempotent.
  - apply strip_spec.
  - unfold sidebar_filters. cbn [selected_range search_text search_term].
    now rewrite lower_strip, lower_idempotent, strip_idempotent.
Qed.

(** ** The labels of the select box *)

Lemma length_zeros (k : nat) : String.length (zeros k) = k.
Proof.
  induction k as [|k IH]; [reflexivity | simpl; now rewrite IH].
Qed.

Lemma uint_of_zeros (k : nat) (s : string) :
  NilEmpty.uint_of_string (zeros k ++ s)
  = option_map (Nat.iter k Decimal.D0) (NilEmpty.uint_of_string s).
Proof.
  induction k as [|k IH]; cbn [zeros append Nat.iter].
  - now destruct (NilEmpty.uint_of_string s).
  - cbn [NilEmpty.uint_of_string]. rewrite IH.
    now destruct (NilEmpty.uint_of_string s).
Qed.

Lemma of_uint_zeros (k : nat) (d : Decimal.uint) :
  Pos.of_uint (Nat.iter k Decimal.D0 d) = Pos.of_uint d.
Proof.
  induction k as [|k IH]; [reflexivity | exact IH].
Qed.

Lemma to_uint_nonnil (m : N) : N.to_uint m <> Decimal.Nil.
Proof.
  destruct m; [discriminate | apply Unsigned.to_uint_nonnil].
Qed.

Lemma uint_of_digits (m : N) :
  NilEmpty.uint_of_string (NilZero.string_of_uint (N.to_uint m))
  = Some (N.to_uint m)
  /\ NilZero.string_of_uint (N.to_uint m) <> "".
Proof.
  assert (U := NilZero.usu (N.to_uint m) (to_uint_nonnil m)).
  unfold NilZero.uint_of_string in U.
  destruct (NilZero.string_of_uint (N.to_uint m)); [discriminate|].
  split; [exact U | discriminate].
Qed.

Lemma first_not_minus (c : ascii) (r : string) (d : Decimal.uint) :
  NilEmpty.uint_of_string (String c r) = Some d -> (c =? "-")%char = false.
Proof.
  cbn [NilEmpty.uint_of_string]. intros H.
  destruct (Ascii.eqb_spec c "-") as [->|]; [|reflexivity].
  now destruct (NilEmpty.uint_of_string r).
Qed.

Lemma read_padded (k : nat) (m : N) :
  NilZero.int_of_string (zeros k ++ NilZero.string_of_uint (N.to_uint m))
  = Some (Decimal.Pos (Nat.iter k Decimal.D0 (N.to_uint m)))
  /\ NilZero.uint_of_string (zeros k ++ NilZero.string_of_uint (N.to_uint m))
     = Some (Nat.iter k Decimal.D0 (N.to_uint m)).
Proof.
  destruct (uint_of_digits m) as [U Ne].
  assert (P := uint_of_zeros k (NilZero.string_of_uint (N.to_uint m))).
  rewrite U in P. cbn [option_map] in P.
  destruct (zeros k ++ NilZero.string_of_uint (N.to_uint m)) as [|c r] eqn:E.
  - destruct k; [now elim Ne | discriminate E].
  - unfold NilZero.int_of_string, NilZero.uint_of_string.
    rewrite (first_not_minus c r _ P), P. now split.
Qed.

Lemma read_format (n : Z) : read_decimal (format_03d n) = Some n.
Proof.
  unfold read_decimal, format_03d.
  destruct (Z.ltb_spec n 0) as [Neg|Pos].
  - destruct (read_padded (2 - String.length
                                 (NilZero.string_of_uint (N.to_uint (Z.abs_N n))))
                          (Z.abs_N n)) as [_ U].
    change ("-" ++ ?x) with (String "-" x).
    cbn [append NilZero.int_of_string]. rewrite Ascii.eqb_refl, U.
    cbn [option_map Z.of_int]. unfold Z.of_uint.
    rewrite of_uint_zeros. change (Pos.of_uint ?d) with (N.of_uint d).
    rewrite DecimalN.Unsigned.of_to. f_equal. lia.
  - destruct (read_padded (3 - String.length
                                 (NilZero.string_of_uint (N.to_uint (Z.abs_N n))))
                          (Z.abs_N n)) as [I _].
    rewrite I. cbn [option_map Z.of_int]. unfold Z.of_uint.
    rewrite of_uint_zeros. change (Pos.of_uint ?d) with (N.of_uint d).
    rewrite DecimalN.Unsigned.of_to. f_equal. lia.
Qed.

Lemma format_width (n : Z) : (3 <= String.length (format_03d n))%nat.
Proof.
  unfold format_03d. destruct (n <? 0);
    rewrite ?length_append, length_zeros; cbn [String.length]; lia.
Qed.

Lemma format_three (n : Z) :
  0 <= n <= 999 -> String.length (format_03d n) = 3%nat.
Proof.
  intros H.
  assert (A : forallb (fun m => (String.length (format_03d (Z.of_nat m)) =? 3)%nat)
                      (seq 0 1000) = true) by (vm_compute; reflexivity).
  rewrite forallb_forall in A.
  specialize (A (Z.to_nat n)). rewrite Z2Nat.id in A by lia.
  apply Nat.eqb_eq, A, in_seq. lia.
Qed.

Lemma slice_prefix (n : nat) (s : string) : prefix (substring 0 n s) s = true.
Proof.
  revert s. induction n as [|n IH]; intros s.
  - now destruct s.
  - destruct s as [|c r]; [reflexivity|].
    cbn [substring prefix]. destruct (ascii_dec c c) as [_|ne]; [apply IH | now elim ne].
Qed.

Lemma slice_length (n : nat) (s : string) :
  String.length (substring 0 n s) = Nat.min n (String.length s).
Proof.
  revert s. induction n as [|n IH]; intros s.
  - now destruct s.
  - destruct s as [|c r]; [reflexivity|].
    cbn [substring String.length Nat.min]. now rewrite IH.
Qed.

(** X16: the label of a row in the select box is ["#"], the rank, [" - "],
    the name, [" - "], the start of the description and ["..."], where the
    rank is written in decimal on at least three characters (exactly three
    from 0 to 999) and reads back as the rank of the row, and the start of
    the description is its first 50 characters, or all of it when it is
    shorter; the three dots are added in both cases. *)
Theorem display_text_parts (row : CommandEntry) :
  exists number start : string,
    display_text row
    = "#" ++ number ++ " - " ++ comando row ++ " - " ++ start ++ "..."
    /\ read_decimal number = Some (ordem_importância row)
    /\ (3 <= String.length number)%nat
    /\ (0 <= ordem_importância row <= 999 -> String.length number = 3%nat)
    /\ prefix start (descrição row) = true
    /\ String.length start = Nat.min 50 (String.length (descrição row)).
Proof.
  exists (format_03d (ordem_importância row)), (substring 0 50 (descrição row)).
  split; [reflexivity|]. split; [apply read_format|].
  split; [apply format_width|]. split; [apply format_three|].
  split; [apply slice_prefix | apply slice_length].
Qed.

(** ** The constructor and the script *)

(** X17: whatever the file, whatever indexer the sort returns (within the
    contract or not) and whatever is on the page, the constructor either
    returns with a frame in [self.df] and nothing but the page
    configuration added, or raises [StopException] with the page
    configuration and exactly one error box added; no exception derived
    from [Exception] leaves it. *)
Theorem constructor_outcomes
    (argsort : list Z -> list nat) (file : csv_file) (s : state) :
  (exists d : DataFrame,
      __init__ argsort file s
      = (Return tt, {| df := Some d; page := page s ++ [set_page_config] |}))
  \/ (exists (msg : error_text) (kept : option DataFrame),
         __init__ argsort file s
         = (Raise StopException,
            {| df := kept;
               page := page s ++ [set_page_config; st_error msg] |})).
Proof.
  unfold __init__, setup_page_config.
  destruct file as [|why|d].
  - right. do 2 eexists. unfold load_data. cbn [exists_]. monad.
    now rewrite <- app_assoc.
  - right. do 2 eexists. unfold load_data. cbn [exists_ pd_read_csv]. monad.
    now rewrite <- app_assoc.
  - destruct (has_required_columns d) eqn:H.
    + destruct (take (argsort (map ordem_importância (rows d))) (rows d))
        as [sorted|] eqn:T; [left; eexists | right; do 2 eexists];
        unfold bind at 1; unfold emit at 1;
        rewrite load_data_table by exact H;
        unfold sort_values; rewrite T; monad;
        rewrite <- ?app_assoc; reflexivity.
    + right. do 2 eexists. unfold bind at 1. unfold emit at 1.
      rewrite load_data_rejects by exact H. cbn [page].
      now rewrite <- app_assoc.
Qed.

(** X18: once the data is loaded, a search text for which [re.compile]
    raises makes the whole script show the header, the sidebar, the error
    box of [main] with that exception and the hint to reload, then the style
    sheet, and return: the data is loaded but none of it is shown. *)
Theorem script_pattern_rejected
    (re_other : string -> compiled) (argsort : list Z -> list nat)
    (file : csv_file) (inp : Inputs) (d : DataFrame) (e : exception) :
  __init__ argsort file start
  = (Return tt, {| df := Some d; page := [set_page_config] |}) ->
  truthy (search_term (sidebar_filters inp)) = true ->
  re_compile re_other (search_term (sidebar_filters inp)) = Rejected e ->
  script re_other argsort file inp start
  = (Return tt,
     {| df := Some d;
        page := [ set_page_config; header; sidebar_filters_title;
                  sidebar_selectbox range_labels; sidebar_text_input;
                  st_error (app_failed e); st_info_reload; style_sheet ] |}).
Proof.
  intros L T C.
  assert (F : forall pg,
             filter_commands re_other (sidebar_filters inp)
               {| df := Some d; page := pg |}
             = (Raise (Exception e), {| df := Some d; page := pg |})).
  { intros pg. now rewrite filter_commands_outcome, T, C. }
  unfold script, main. unfold bind at 1. unfold try_except.
  unfold bind at 1. rewrite L.
  unfold run, render_header, render_sidebar_filters, sidebar_filters in *.
  destruct (importance_ranges (selected_range inp)) as [lo hi].
  cbn [fst snd search_term] in F |- *.
  do 5 (unfold bind at 1; unfold emit at 1; cbn [df page]).
  unfold ret at 1. unfold bind at 1. rewrite F.
  monad. reflexivity.
Qed.

Lemma script_pattern_rejected_witness :
  script no_other_syntax argsort_stable (Table unsorted)
    {| selected_range := Todos; search_text := "  *.TXT "; selected_index := None |}
    start
  = (Return tt,
     {| df := Some sample;
        page := [ set_page_config; header; sidebar_filters_title;
                  sidebar_selectbox range_labels; sidebar_text_input;
                  st_error (app_failed (ReError "*.txt"));
                  st_info_reload; style_sheet ] |}).
Proof.
  exact (script_pattern_rejected no_other_syntax argsort_stable (Table unsorted)
           {| selected_range := Todos; search_text := "  *.TXT ";
              selected_index := None |}
           sample (ReError "*.txt") eq_refl eq_refl eq_refl).
Defined.

(** ** Narrowing the search *)

Lemma Substring_trans (a b c : string) :
  Substring a b -> Substring b c -> Substring a c.
Proof.
  intros (p & q & ->) (u & v & ->).
  exists (u ++ p), (q ++ v). now rewrite !append_assoc.
Qed.

Lemma filter_narrow {A : Type} (f g : A -> bool) (l : list A) :
  (forall x, g x = true -> f x = true) ->
  filter g l = filter g (filter f l).
Proof.
  intros H. rewrite filter_filter. apply filter_ext. intros x.
  destruct (g x) eqn:G; [now rewrite (H x G) | now rewrite andb_false_r].
Qed.

(** X19: for search terms without characters special to [re], typing more
    never adds rows: when the term [short] occurs in the term [long], the
    rows the filter returns for [long] are among those it returns for
    [short] with the same bounds, in the same order. *)
Theorem longer_term_narrows
    (re_other : string -> compiled)
    (d : DataFrame) (shown : list event) (lo hi : Z) (short long : string) :
  plain short = true ->
  plain long = true ->
  Substring short long ->
  exists (keep : CommandEntry -> bool) (found_short : list CommandEntry),
    filter_commands re_other
      {| min_importance := lo; max_importance := hi; search_term := short |}
      {| df := Some d; page := shown |}
    = (Return {| columns := columns d; rows := found_short |},
       {| df := Some d; page := shown |})
    /\ filter_commands re_other
         {| min_importance := lo; max_importance := hi; search_term := long |}
         {| df := Some d; page := shown |}
       = (Return {| columns := columns d; rows := filter keep found_short |},
          {| df := Some d; page := shown |}).
Proof.
  intros Ps Pl S.
  assert (C : forall t, plain t = true ->
              exists found,
                (if truthy t then re_compile re_other t else Pattern (fun _ => true))
                = Pattern found
                /\ forall x, found x = true <-> (t = "" \/ Substring t x)).
  { intros t Pt. destruct (truthy t) eqn:T.
    - exists (search (lits t)). unfold re_compile.
      rewrite sre_parse_plain by exact Pt. split; [reflexivity|].
      intros x. rewrite search_lits, contains_Substring. split; [now right|].
      intros [->|H]; [discriminate | exact H].
    - exists (fun _ => true). split; [reflexivity|].
      apply truthy_false in T. intros x. split; [now left | reflexivity]. }
  destruct (C short Ps) as (fs & Es & Hs). destruct (C long Pl) as (fl & El & Hl).
  set (Fs := {| min_importance := lo; max_importance := hi; search_term := short |}).
  set (Fl := {| min_importance := lo; max_importance := hi; search_term := long |}).
  exists (kept Fl fl), (filter (kept Fs fs) (rows d)).
  rewrite !filter_commands_outcome. cbn [search_term Fs Fl]. rewrite Es, El.
  split; [reflexivity|]. do 3 f_equal. apply filter_narrow.
  intros e. unfold kept. cbn [min_importance max_importance Fs Fl].
  rewrite !andb_true_iff, !orb_true_iff, !Hs, !Hl.
  intros [R [[E|M]|[E|M]]]; split; try exact R.
  - subst long. destruct S as (p & q & E). left. left.
    destruct p; [destruct short; [reflexivity | discriminate E] | discriminate E].
  - left. right. eapply Substring_trans; eassumption.
  - subst long. destruct S as (p & q & E). left. left.
    destruct p; [destruct short; [reflexivity | discriminate E] | discriminate E].
  - right. right. eapply Substring_trans; eassumption.
Qed.

Lemma longer_term_narrows_witness :
  exists (keep : CommandEntry -> bool) (found_short : list CommandEntry),
    filter_commands no_other_syntax
      {| min_importance := 1; max_importance := 157; search_term := "git" |}
      {| df := Some sample; page := [] |}
    = (Return {| columns := columns sample; rows := found_short |},
       {| df := Some sample; page := [] |})
    /\ filter_commands no_other_syntax
         {| min_importance := 1; max_importance := 157; search_term := "git re" |}
         {| df := Some sample; page := [] |}
       = (Return {| columns := columns sample; rows := filter keep found_short |},
          {| df := Some sample; page := [] |}).
Proof.
  apply (longer_term_narrows no_other_syntax sample [] 1 157 "git" "git re");
    try reflexivity.
  now exists "", " re".
Defined.

(** ** Loading a file already in order *)

(** X20: a file whose rows are already in non-decreasing order of rank,
    with no rank used twice, is loaded as it is, whatever indexer the sort
    returns within its contract. *)
Theorem load_data_sorted_file
    (argsort : list Z -> list nat) (d : DataFrame) (s : state) :
  sorts argsort ->
  has_required_columns d = true ->
  StronglySorted rank_le (rows d) ->
  NoDup (map ordem_importância (rows d)) ->
  load_data argsort (Table d) s
  = (Return tt, {| df := Some d; page := page s |}).
Proof.
  intros Hs Hc S N.
  destruct (load_data_sorted argsort d s Hs Hc) as (out & E & So & P).
  rewrite E. do 3 f_equal.
  rewrite <- (sorted_arrangement_unique (rows d) out N P S So).
  now destruct d.
Qed.

Lemma load_data_sorted_file_witness :
  load_data argsort_reversing (Table sample) start
  = (Return tt, {| df := Some sample; page := page start |}).
Proof.
  apply (load_data_sorted_file argsort_reversing sample start
           argsort_reversing_sorts eq_refl).
  - repeat constructor; vm_compute; discriminate.
  - repeat constructor; simpl; intuition discriminate.
Defined.
